(** * Detection pipeline of [backend/api/pdf_processor.py]

    A shallow embedding of the [PDFProcessor] class: the tensor helpers
    ([_adjust_detection_coordinates], [_filter_detections_by_class],
    [_merge_detections]), the corner crop, the preprocessing adapter and the
    page loop of [process_pdf], and the file check of the upload serializer
    ([backend/api/serializers.py]), followed by the properties of the
    specification that concern them and further properties of the code.

    Conventions of the embedding.
    - A Python or tensor float is modelled by the exact rational it denotes
      ([Qc], canonical rationals, so that equality is Leibniz equality).
      Rounding error of float arithmetic is outside the model.
    - [model.predict(...)] returns a one-element list; the embedding works on
      that element ([results[0]] in the source).
    - Collaborators that the source only calls (the YOLO predictor, OpenCV
      filters, PyMuPDF rasterisation, PIL drawing) are fields of the record
      [Runtime]; a call that may raise returns an [attempt]. *)

From Stdlib Require Import ZArith QArith Qcanon Qround Lia Lqa.
From stdpp Require Import base option list gmap strings pretty fin_maps.

Open Scope Qc_scope.

(** ** Numbers *)

#[global] Instance Qc_eq_decision : EqDecision Qc := Qc_eq_dec.

(** An [int] used where the source mixes it with floats. *)
Definition of_int (z : Z) : Qc := Q2Qc (inject_Z z).

(** A decimal literal such as [0.10] = [decimal 10 100]. *)
Definition decimal (n : Z) (d : positive) : Qc := Q2Qc (n # d).

(** Python's [int(x)] on a float: truncation toward zero. *)
Definition py_int (q : Qc) : Z := Z.quot (Qnum q) (Zpos (Qden q)).

(** Round half to even on the exact value, to an integer. *)
Definition round_half_even (q : Q) : Z :=
  let f := Qfloor q in
  match Qcompare (q - inject_Z f) (1 # 2) with
  | Lt => f
  | Gt => (f + 1)%Z
  | Eq => if Z.even f then f else (f + 1)%Z
  end.

(** [10 ** ndigits] *)
Definition pow10 (ndigits : nat) : positive := Nat.iter ndigits (Pos.mul 10) 1%positive.

(** Python's [round(x, ndigits)] on a float: the nearest multiple of
    [10^-ndigits], ties to the even one. *)
Definition py_round (q : Qc) (ndigits : nat) : Qc :=
  let p := pow10 ndigits in
  decimal (round_half_even (q * inject_Z (Zpos p))%Q) p.

(** [a] and [b] differ by at most [tol]. *)
Definition within_tolerance (a b tol : Qc) : Prop := a - b <= tol ∧ b - a <= tol.

(** ** Exceptions *)

Inductive attempt (A : Type) : Type :=
  | Returns (a : A)
  | Raises (msg : string).
Arguments Returns {A} a.
Arguments Raises {A} msg.

Definition attempt_bind {A B} (m : attempt A) (k : A → attempt B) : attempt B :=
  match m with
  | Returns a => k a
  | Raises e => Raises e
  end.

(** ** Detection tensors

    [Boxes.data] has one row per detection, in one of the two layouts named in
    the source comments:
    [[x1, y1, x2, y2, conf, cls]] or [[x1, y1, x2, y2, track_id, conf, cls]].
    The layout is a property of the whole tensor (its second dimension). *)

Record Row6 := mkRow6
  { r6_x1 : Qc; r6_y1 : Qc; r6_x2 : Qc; r6_y2 : Qc; r6_conf : Qc; r6_cls : Qc }.

Record Row7 := mkRow7
  { r7_x1 : Qc; r7_y1 : Qc; r7_x2 : Qc; r7_y2 : Qc;
    r7_track_id : Qc; r7_conf : Qc; r7_cls : Qc }.

Inductive Tensor :=
  | T6 (rows : list Row6)
  | T7 (rows : list Row7).

(** [Boxes(data, orig_shape)] *)
Record Boxes := mkBoxes { data : Tensor; boxes_orig_shape : Z * Z }.

(** The element [results[0]] of a prediction. *)
Record Results := mkResults { boxes : option Boxes; orig_shape : Z * Z }.

(** [tensor.shape[0]] *)
Definition tensor_len (t : Tensor) : nat :=
  match t with T6 rows => length rows | T7 rows => length rows end.

(** [tensor.shape[1]] *)
Definition tensor_width (t : Tensor) : nat :=
  match t with T6 _ => 6%nat | T7 _ => 7%nat end.

(** [len(boxes)] *)
Definition boxes_len (b : Boxes) : nat := tensor_len (data b).

(** [boxes.xyxy]: the first four columns. *)
Definition tensor_xyxy (t : Tensor) : list (Qc * Qc * Qc * Qc) :=
  match t with
  | T6 rows => (λ r, (r6_x1 r, r6_y1 r, r6_x2 r, r6_y2 r)) <$> rows
  | T7 rows => (λ r, (r7_x1 r, r7_y1 r, r7_x2 r, r7_y2 r)) <$> rows
  end.

(** [boxes.conf]: the column before the last. *)
Definition tensor_conf (t : Tensor) : list Qc :=
  match t with T6 rows => r6_conf <$> rows | T7 rows => r7_conf <$> rows end.

(** [boxes.cls]: the last column. *)
Definition tensor_cls (t : Tensor) : list Qc :=
  match t with T6 rows => r6_cls <$> rows | T7 rows => r7_cls <$> rows end.

(** [boxes.id]: the tracking column, [None] for the six-column layout. *)
Definition tensor_id (t : Tensor) : option (list Qc) :=
  match t with T6 _ => None | T7 rows => Some (r7_track_id <$> rows) end.

(** A detection as the specification names it: box, optional tracking id,
    confidence, class. [detection_set] reads the detections off a result;
    a result without a [Boxes] object carries none. *)
Record Detection := mkDetection
  { d_box : Qc * Qc * Qc * Qc; d_track_id : option Qc; d_conf : Qc; d_cls : Qc }.

Definition tensor_detections (t : Tensor) : list Detection :=
  match t with
  | T6 rows =>
      (λ r, mkDetection (r6_x1 r, r6_y1 r, r6_x2 r, r6_y2 r) None
              (r6_conf r) (r6_cls r)) <$> rows
  | T7 rows =>
      (λ r, mkDetection (r7_x1 r, r7_y1 r, r7_x2 r, r7_y2 r) (Some (r7_track_id r))
              (r7_conf r) (r7_cls r)) <$> rows
  end.

Definition detection_set (r : Results) : list Detection :=
  from_option (λ b, tensor_detections (data b)) [] (boxes r).

(** A detection moved by [(dx, dy)]. *)
Definition translate_detection (dx dy : Z) (d : Detection) : Detection :=
  let '(x1, y1, x2, y2) := d_box d in
  {| d_box := (x1 + of_int dx, y1 + of_int dy, x2 + of_int dx, y2 + of_int dy);
     d_track_id := d_track_id d; d_conf := d_conf d; d_cls := d_cls d |}.

(** [results[0].boxes is None or len(results[0].boxes) == 0] *)
Definition no_boxes (r : Results) : bool :=
  match boxes r with
  | None => true
  | Some b => Nat.eqb (boxes_len b) 0
  end.

(** The detections carried by a result, if it has a [Boxes] object. *)
Definition boxes_data (r : Results) : option Tensor := data <$> boxes r.

(** The layout of a result's tensor ([data.shape[1]]), if it has one. *)
Definition layout (r : Results) : option nat := (λ b, tensor_width (data b)) <$> boxes r.

(** Number of detections of a result. *)
Definition num_detections (r : Results) : nat :=
  from_option boxes_len 0%nat (boxes r).

(** [results[0].boxes = new_boxes] *)
Definition set_boxes (r : Results) (b : option Boxes) : Results :=
  {| boxes := b; orig_shape := orig_shape r |}.

(** *** [_adjust_detection_coordinates] *)

(** [data[:, 0] += x_offset; data[:, 1] += y_offset;
     data[:, 2] += x_offset; data[:, 3] += y_offset] *)
Definition shift_columns (t : Tensor) (x_offset y_offset : Z) : Tensor :=
  let dx := of_int x_offset in
  let dy := of_int y_offset in
  match t with
  | T6 rows =>
      T6 ((λ r, mkRow6 (r6_x1 r + dx) (r6_y1 r + dy) (r6_x2 r + dx) (r6_y2 r + dy)
                       (r6_conf r) (r6_cls r)) <$> rows)
  | T7 rows =>
      T7 ((λ r, mkRow7 (r7_x1 r + dx) (r7_y1 r + dy) (r7_x2 r + dx) (r7_y2 r + dy)
                       (r7_track_id r) (r7_conf r) (r7_cls r)) <$> rows)
  end.

Definition _adjust_detection_coordinates (results : Results) (x_offset y_offset : Z)
  : Results :=
  if no_boxes results then results
  else
    match boxes results with
    | None => results
    | Some b =>
        let data' := shift_columns (data b) x_offset y_offset in
        set_boxes results (Some (mkBoxes data' (orig_shape results)))
    end.

(** *** [_filter_detections_by_class] *)

(** One entry of [np.isin(classes, allowed_classes)]. *)
Definition isin (allowed_classes : list Z) (c : Qc) : bool :=
  bool_decide (c ∈ of_int <$> allowed_classes).

(** [data[mask_tensor]] with [mask = np.isin(cls, allowed_classes)] *)
Definition mask_rows (t : Tensor) (allowed_classes : list Z) : Tensor :=
  match t with
  | T6 rows => T6 (filter (λ r, isin allowed_classes (r6_cls r) = true) rows)
  | T7 rows => T7 (filter (λ r, isin allowed_classes (r7_cls r) = true) rows)
  end.

(** [mask.sum()] *)
Definition mask_sum (t : Tensor) (allowed_classes : list Z) : nat :=
  length (filter (λ c, isin allowed_classes c = true) (tensor_cls t)).

Definition _filter_detections_by_class (results : Results) (allowed_classes : list Z)
  : Results :=
  if no_boxes results then results
  else
    match boxes results with
    | None => results
    | Some b =>
        if Nat.eqb (mask_sum (data b) allowed_classes) 0
        then set_boxes results None
        else
          let filtered_data := mask_rows (data b) allowed_classes in
          set_boxes results (Some (mkBoxes filtered_data (orig_shape results)))
    end.

(** *** [_merge_detections] *)

(** [torch.cat([a, b], dim=0)]: the other dimension must agree. *)
Definition torch_cat (a b : Tensor) : attempt Tensor :=
  match a, b with
  | T6 ra, T6 rb => Returns (T6 (ra ++ rb))
  | T7 ra, T7 rb => Returns (T7 (ra ++ rb))
  | _, _ => Raises "Sizes of tensors must match except in dimension 0"
  end.

Definition _merge_detections (results1 results2 : Results) : attempt Results :=
  if no_boxes results1 then Returns results2
  else if no_boxes results2 then Returns results1
  else
    match boxes results1, boxes results2 with
    | Some b1, Some b2 =>
        attempt_bind (torch_cat (data b1) (data b2)) (λ merged_data,
          Returns (set_boxes results1
                     (Some (mkBoxes merged_data (orig_shape results1)))))
    | _, _ => Returns results1
    end.

(** ** Images *)

Definition Pixel : Type := Z * Z * Z.

(** A PIL image: its [size] = (width, height) and its pixels. *)
Record Image := mkImage { size : Z * Z; pixel : Z → Z → Pixel }.

Definition image_width (im : Image) : Z := fst (size im).
Definition image_height (im : Image) : Z := snd (size im).

(** [image.crop((left, upper, right, lower))]: the result has size
    [(right - left, lower - upper)]; pixels outside the source are black. *)
Definition crop (im : Image) (box : Z * Z * Z * Z) : Image :=
  let '(b_left, b_upper, b_right, b_lower) := box in
  {| size := (b_right - b_left, b_lower - b_upper)%Z;
     pixel := λ x y,
       let sx := (x + b_left)%Z in
       let sy := (y + b_upper)%Z in
       if bool_decide (0 ≤ sx < image_width im ∧ 0 ≤ sy < image_height im)%Z
       then pixel im sx sy else (0, 0, 0)%Z |}.

(** Default of the [corner_size] parameter. *)
Definition corner_size_default : Qc := decimal 10 100.

(** [_extract_bottom_right_corner(image, corner_size=0.10)];
    [None] stands for an omitted argument. *)
Definition _extract_bottom_right_corner (image : Image) (corner_size : option Qc)
  : Image * (Z * Z) :=
  let corner_size := default corner_size_default corner_size in
  let '(width, height) := size image in
  let corner_width := py_int (of_int width * corner_size) in
  let corner_height := py_int (of_int height * corner_size) in
  let x_offset := (width - corner_width)%Z in
  let y_offset := (height - corner_height)%Z in
  let corner_image := crop image (x_offset, y_offset, width, height) in
  (corner_image, (x_offset, y_offset)).

(** ** Collaborators *)

(** One rectangle-and-label instruction handed to PIL by [draw_detections]. *)
Record DrawCmd := mkDrawCmd
  { dc_box : Qc * Qc * Qc * Qc; dc_color : Z * Z * Z; dc_label : string; dc_conf : Qc }.

(** A page of the source document: [page.rect] and [page.get_pixmap] at a
    given scale (already converted to an RGB image, as [page_to_pil] does). *)
Record Page := mkPage { page_rect : Qc * Qc; get_pixmap : Qc → Image }.

(** [page_to_pil(page, scale)]: the page's pixmap at that scale as an RGB
    image. *)
Definition page_to_pil (page : Page) (scale : Qc) : Image := get_pixmap page scale.

(** What the YOLO predictor yields for one image. Prediction (as opposed to
    tracking) fills [Boxes.data] in the six-column layout; [boxes] may be
    absent. *)
Record Prediction := mkPrediction
  { pred_boxes : option (list Row6); pred_shape : Z * Z }.

(** The [Results] object holding a prediction. *)
Definition results_of_prediction (p : Prediction) : Results :=
  {| boxes := (λ rows, mkBoxes (T6 rows) (pred_shape p)) <$> pred_boxes p;
     orig_shape := pred_shape p |}.

Record Runtime := mkRuntime
  { ndarray : Type;
    (** the module-level flag set by [import cv2] *)
    HAS_OPENCV : bool;
    (** [self.model.predict(image, conf=, iou=, max_det=, verbose=False)[0]] *)
    model_predict : Image → Qc → Qc → Z → Prediction;
    (** [self.model.names] *)
    model_names : gmap Z string;
    (** [cv2.cvtColor(np.array(image), cv2.COLOR_RGB2BGR)] *)
    cv_from_pil : Image → attempt ndarray;
    (** LAB split, CLAHE on L, merge, back to BGR *)
    cv_clahe : ndarray → attempt ndarray;
    (** [cv2.bilateralFilter] *)
    cv_bilateral : ndarray → attempt ndarray;
    (** grayscale, [cv2.adaptiveThreshold], back to BGR *)
    cv_adaptive_threshold : ndarray → attempt ndarray;
    (** [cv2.filter2D] with the sharpening kernel *)
    cv_sharpen : ndarray → attempt ndarray;
    (** [Image.fromarray(cv2.cvtColor(img_cv, cv2.COLOR_BGR2RGB))] *)
    cv_to_pil : ndarray → attempt Image;
    (** the PIL calls of [draw_detections], given what to draw *)
    pil_draw : Image → list DrawCmd → Image;
    (** the image built by [_create_preprocessing_comparison] *)
    pil_comparison : Image → Image → list string → nat → Image }.

(** ** The preprocessing adapter *)

Record PreprocessingInfo := mkInfo
  { applied : list string;
    original_size : Z * Z;
    techniques_count : option nat }.

(** Code inside the second [try] block: it reads and appends to
    [preprocessing_info['applied']], and may raise; what was appended before
    the exception stays appended. *)
Definition Try (A : Type) : Type := list string → list string * attempt A.

Definition try_ret {A} (a : A) : Try A := λ applied, (applied, Returns a).

Definition try_bind {A B} (m : Try A) (k : A → Try B) : Try B :=
  λ applied,
    match m applied with
    | (applied', Returns a) => k a applied'
    | (applied', Raises e) => (applied', Raises e)
    end.

Definition try_call {A} (r : attempt A) : Try A := λ applied, (applied, r).

Definition try_append (name : string) : Try unit :=
  λ applied, (applied ++ [name], Returns tt).

Definition try_len_applied : Try nat := λ applied, (applied, Returns (length applied)).

Notation "'let!' x ':=' m 'in' k" := (try_bind m (λ x, k))
  (at level 10, x name, m at level 100, k at level 200, only parsing).

Section Pipeline.

Context (rt : Runtime).

(** [if requested: img_cv = op(img_cv); applied.append(name)] *)
Definition stage (requested : bool) (op : ndarray rt → attempt (ndarray rt))
    (name : string) (img_cv : ndarray rt) : Try (ndarray rt) :=
  if requested then
    let! out := try_call (op img_cv) in
    let! _done := try_append name in
    try_ret out
  else try_ret img_cv.

(** Body of the second [try] block of [preprocess_image]. *)
Definition preprocess_stages (img_cv : ndarray rt)
    (use_clahe use_denoise use_threshold : bool) : Try Image :=
  let! img_cv := stage use_clahe (cv_clahe rt) "CLAHE (contrast enhancement)" img_cv in
  let! img_cv := stage use_denoise (cv_bilateral rt)
                   "Denoising (bilateral filter - fast)" img_cv in
  let! img_cv := stage use_threshold (cv_adaptive_threshold rt)
                   "Thresholding (binarization)" img_cv in
  let! n := try_len_applied in
  let! img_cv := stage (bool_decide (0 < n)%nat) (cv_sharpen rt) "Sharpening" img_cv in
  try_call (cv_to_pil rt img_cv).

Definition preprocess_image (image : Image)
    (use_clahe use_denoise use_threshold : bool) : Image * PreprocessingInfo :=
  let info applied count :=
    {| applied := applied; original_size := size image; techniques_count := count |} in
  if negb (HAS_OPENCV rt) then
    (image, info ["Preprocessing unavailable (OpenCV not installed)"] None)
  else if negb (use_clahe || use_denoise || use_threshold) then
    (image, info [] None)
  else
    match cv_from_pil rt image with
    | Raises e => (image, info ["Error: " +:+ e] None)
    | Returns img_cv =>
        match preprocess_stages img_cv use_clahe use_denoise use_threshold [] with
        | (applied, Returns processed_image) =>
            (processed_image, info applied (Some (length applied)))
        | (applied, Raises e) =>
            (image, info (applied ++ ["Error during preprocessing: " +:+ e]) None)
        end
    end.

(** ** Drawing and output pages *)

(** Python's [min] and [max] on two numbers. *)
Definition py_min (a b : Qc) : Qc := if Qclt_le_dec b a then b else a.
Definition py_max (a b : Qc) : Qc := if Qclt_le_dec a b then b else a.

(** [max(0, min(v, bound))] *)
Definition clamp (v : Qc) (bound : Z) : Qc := py_max 0 (py_min v (of_int bound)).

(** [class_names.get(cls_id, f"class_{cls_id}")] *)
Definition class_label (class_names : gmap Z string) (cls_id : Z) : string :=
  default ("class_" +:+ pretty cls_id) (class_names !! cls_id).

Definition colors : gmap Z (Z * Z * Z) :=
  {[ 0%Z := (255, 0, 0)%Z; 1%Z := (0, 255, 0)%Z; 2%Z := (0, 0, 255)%Z ]}.

(** The rows of a tensor as [draw_detections] and [process_pdf] read them:
    [(boxes.xyxy[i], boxes.conf[i], boxes.cls[i])]. *)
Definition tensor_view (t : Tensor) : list (Qc * Qc * Qc * Qc * Qc * Qc) :=
  match t with
  | T6 rows => (λ r, (r6_x1 r, r6_y1 r, r6_x2 r, r6_y2 r, r6_conf r, r6_cls r)) <$> rows
  | T7 rows => (λ r, (r7_x1 r, r7_y1 r, r7_x2 r, r7_y2 r, r7_conf r, r7_cls r)) <$> rows
  end.

(** What the inner loop of [draw_detections] draws for one box. *)
Definition draw_command (width height : Z) (class_names : gmap Z string)
    (row : Qc * Qc * Qc * Qc * Qc * Qc) : DrawCmd :=
  let '(x1, y1, x2, y2, conf, cls) := row in
  let cls_id := py_int cls in
  {| dc_box := (clamp x1 width, clamp y1 height, clamp x2 width, clamp y2 height);
     dc_color := default (255, 255, 0)%Z (colors !! cls_id);
     dc_label := class_label class_names cls_id;
     dc_conf := conf |}.

Definition draw_detections (image : Image) (detections : list Results)
    (class_names : gmap Z string) : Image * nat :=
  let '(width, height) := size image in
  let cmds :=
    mjoin ((λ det,
      match boxes det with
      | None => []
      | Some b => draw_command width height class_names <$> tensor_view (data b)
      end) <$> detections) in
  (pil_draw rt image cmds, length cmds).

(** [pil_to_pdf_page]: appends one page holding the image. *)
Definition pil_to_pdf_page (image : Image) (target_doc : list Image) : list Image :=
  target_doc ++ [image].

(** [_create_preprocessing_comparison]: appends one comparison page. *)
Definition _create_preprocessing_comparison (original processed : Image)
    (info : PreprocessingInfo) (target_doc : list Image) (page_num : nat) : list Image :=
  pil_to_pdf_page (pil_comparison rt original processed (applied info) page_num) target_doc.

(** ** Detection on the corner *)

(** [self.model.predict(...)], recording the image of each invocation. *)
Definition predict (image : Image) (conf_threshold iou_threshold : Qc)
    (max_detections : Z) (calls : list Image) : Results * list Image :=
  (results_of_prediction
     (model_predict rt image conf_threshold iou_threshold max_detections),
   calls ++ [image]).

Definition _detect_on_bottom_right_corner (image : Image)
    (conf_threshold iou_threshold : Qc) (max_detections : Z)
    (corner_size : option Qc) (calls : list Image) : Results * list Image :=
  let corner_size := Some (default corner_size_default corner_size) in
  let '(corner_image, (x_offset, y_offset)) :=
    _extract_bottom_right_corner image corner_size in
  let '(corner_results, calls) :=
    predict corner_image conf_threshold iou_threshold max_detections calls in
  let corner_results := _filter_detections_by_class corner_results [2%Z] in
  let corner_results :=
    if negb (no_boxes corner_results)
    then _adjust_detection_coordinates corner_results x_offset y_offset
    else corner_results in
  (corner_results, calls).

(** ** [process_pdf] *)

Record BBox := mkBBox { bbox_x : Qc; bbox_y : Qc; bbox_width : Qc; bbox_height : Qc }.

Record Annotation := mkAnnotation { category : string; bbox : BBox; area : Qc }.

(** [annotations_output[page_key]]; an entry of [annotations] is the
    one-key dictionary [{annotation_id: {...}}], kept as a pair. *)
Record PageEntry := mkPageEntry
  { annotations : list (string * Annotation); page_size : Z * Z }.

Record PageStat := mkPageStat
  { page : nat; detections : nat; classes : gmap string nat }.

Record PreprocessingSummary := mkSummary
  { enabled : bool; two_pass_mode : bool; techniques : list string }.

Record Thresholds := mkThresholds
  { confidence : Qc; iou : Qc; max_detections : Z }.

(** The dictionary returned by [process_pdf]. *)
Record Report := mkReport
  { report_annotations : gmap string (gmap string PageEntry);
    total_pages : nat;
    total_detections : nat;
    detections_per_class : gmap string nat;
    page_stats : list PageStat;
    model_classes : gmap Z string;
    preprocessing : PreprocessingSummary;
    thresholds : Thresholds }.

(** What [process_pdf] leaves behind besides its return value: the saved
    annotated document, the saved comparison document, and the images the
    predictor was invoked on, in order. *)
Record Effects := mkEffects
  { output_pdf : list Image;
    preprocessing_viz_pdf : option (list Image);
    predictor_calls : list Image }.

Definition category_map : gmap Z string :=
  {[ 0%Z := "signature"; 1%Z := "stamp"; 2%Z := "qr" ]}.

Definition scale_factor : Qc := decimal 2 1.

(** [d[k] = d.get(k, 0) + 1] *)
Definition count_up (d : gmap string nat) (k : string) : gmap string nat :=
  <[ k := (default 0 (d !! k) + 1)%nat ]> d.

(** Locals of the annotation loop (source lines 516-568). *)
Record AnnotationLoop := mkLoop
  { annotation_counter : nat;
    page_annotations : list (string * Annotation);
    page_classes : gmap string nat;
    loop_per_class : gmap string nat }.

(** Conversion of one box to document space (source lines 541-563). *)
Definition to_document_space (xyxy : Qc * Qc * Qc * Qc) : BBox * Qc :=
  let '(x1, y1, x2, y2) := xyxy in
  let x := x1 / scale_factor in
  let y := y1 / scale_factor in
  let width := (x2 - x1) / scale_factor in
  let height := (y2 - y1) / scale_factor in
  let area := width * height in
  ({| bbox_x := py_round x 2; bbox_y := py_round y 2;
      bbox_width := py_round width 2; bbox_height := py_round height 2 |},
   py_round area 3).

(** One iteration of [for i in range(page_detections)]. *)
Definition annotate_box (st : AnnotationLoop) (row : Qc * Qc * Qc * Qc * Qc * Qc)
  : AnnotationLoop :=
  let '(x1, y1, x2, y2, _, cls) := row in
  let cls_id := py_int cls in
  let cls_name := class_label (model_names rt) cls_id in
  let category := class_label category_map cls_id in
  let '(box, area) := to_document_space (x1, y1, x2, y2) in
  let annotation_id := "annotation_" +:+ pretty (annotation_counter st) in
  let annotation_obj := (annotation_id, mkAnnotation category box area) in
  {| annotation_counter := annotation_counter st + 1;
     page_annotations := page_annotations st ++ [annotation_obj];
     page_classes := count_up (page_classes st) cls_name;
     loop_per_class := count_up (loop_per_class st) cls_name |}.

(** Source lines 516-568: returns [page_detections] and the loop's locals. *)
Definition build_annotations (results : Results) (annotation_counter : nat)
    (detections_per_class : gmap string nat) : nat * AnnotationLoop :=
  let st0 := mkLoop annotation_counter [] ∅ detections_per_class in
  match boxes results with
  | Some b => (boxes_len b, foldl annotate_box st0 (tensor_view (data b)))
  | None => (0%nat, st0)
  end.

(** Variables of [process_pdf] that live across pages. *)
Record PdfState := mkState
  { st_total_detections : nat;
    st_detections_per_class : gmap string nat;
    st_page_stats : list PageStat;
    st_preprocessing_applied : list string;
    st_annotations_output : gmap string PageEntry;
    st_annotation_counter : nat;
    st_output_doc : list Image;
    st_preprocessing_viz_doc : option (list Image);
    st_calls : list Image }.

(** Arguments of [process_pdf] after the document and the paths. *)
Record Options := mkOptions
  { conf_threshold : Qc;
    iou_threshold : Qc;
    opt_max_detections : Z;
    use_clahe : bool;
    use_denoise : bool;
    use_threshold : bool;
    preprocessing_viz_path : option string }.

(** What the detection part of an iteration hands to the rest. *)
Record Detected := mkDetected
  { found_results : Results;
    found_applied : list string;
    found_viz_doc : option (list Image);
    found_calls : list Image }.

(** [preprocess_image] followed by the bookkeeping both modes share
    (source lines 440-459 and 480-499). *)
Definition preprocess_and_record (o_clahe o_denoise o_threshold : bool)
    (page_number : nat) (original_image : Image) (st : PdfState)
  : Image * list string * option (list Image) :=
  let '(processed_image, preprocess_info) :=
    preprocess_image original_image o_clahe o_denoise o_threshold in
  let preprocessing_applied :=
    if Nat.eqb page_number 0 then applied preprocess_info
    else st_preprocessing_applied st in
  let viz :=
    match st_preprocessing_viz_doc st with
    | Some doc =>
        Some (_create_preprocessing_comparison original_image processed_image
                preprocess_info doc (page_number + 1))
    | None => None
    end in
  (processed_image, preprocessing_applied, viz).

(** Source lines 423-514: the two detection modes. *)
Definition detect (opts : Options) (page_number : nat) (original_image : Image)
    (st : PdfState) : attempt Detected :=
  let two_pass_mode := use_denoise opts || use_threshold opts in
  if two_pass_mode then
    let '(results_pass1, calls) :=
      predict original_image (conf_threshold opts) (iou_threshold opts)
        (opt_max_detections opts) (st_calls st) in
    let '(processed_image, preprocessing_applied, viz) :=
      preprocess_and_record (use_clahe opts) (use_denoise opts) (use_threshold opts)
        page_number original_image st in
    let '(results_pass2, calls) :=
      _detect_on_bottom_right_corner processed_image (conf_threshold opts)
        (iou_threshold opts) (opt_max_detections opts) None calls in
    attempt_bind (_merge_detections results_pass1 results_pass2) (λ results,
      Returns (mkDetected results preprocessing_applied viz calls))
  else
    let '(image_to_detect, preprocessing_applied, viz) :=
      if use_clahe opts then
        preprocess_and_record (use_clahe opts) false false page_number original_image st
      else (original_image, st_preprocessing_applied st, st_preprocessing_viz_doc st) in
    let '(results, calls) :=
      predict image_to_detect (conf_threshold opts) (iou_threshold opts)
        (opt_max_detections opts) (st_calls st) in
    Returns (mkDetected results preprocessing_applied viz calls).

(** The image single-pass mode hands to the predictor (the local
    [image_to_detect] of the source). *)
Definition image_to_detect (opts : Options) (original_image : Image) : Image :=
  if use_clahe opts
  then fst (preprocess_image original_image (use_clahe opts) false false)
  else original_image.

(** One iteration of [for page_number in range(total_pages)]. *)
Definition process_page (opts : Options) (page_number : nat) (pg : Page)
    (st : PdfState) : attempt PdfState :=
  let '(original_page_width, original_page_height) := page_rect pg in
  let original_image := page_to_pil pg (decimal 2 1) in
  attempt_bind (detect opts page_number original_image st) (λ d,
    let results := found_results d in
    let '(page_detections, lp) :=
      build_annotations results (st_annotation_counter st)
        (st_detections_per_class st) in
    let page_key := "page_" +:+ pretty (page_number + 1)%nat in
    let entry :=
      {| annotations := page_annotations lp;
         page_size := (py_int original_page_width, py_int original_page_height) |} in
    let '(annotated_image, _) :=
      draw_detections original_image [results] (model_names rt) in
    Returns
      {| st_total_detections := st_total_detections st + page_detections;
         st_detections_per_class := loop_per_class lp;
         st_page_stats :=
           st_page_stats st ++
             [mkPageStat (page_number + 1) page_detections (page_classes lp)];
         st_preprocessing_applied := found_applied d;
         st_annotations_output := <[ page_key := entry ]> (st_annotations_output st);
         st_annotation_counter := annotation_counter lp;
         st_output_doc := pil_to_pdf_page annotated_image (st_output_doc st);
         st_preprocessing_viz_doc := found_viz_doc d;
         st_calls := found_calls d |}).

(** The page loop, from [page_number] on. *)
Fixpoint process_pages (opts : Options) (page_number : nat) (pages : list Page)
    (st : PdfState) : attempt PdfState :=
  match pages with
  | [] => Returns st
  | pg :: rest =>
      attempt_bind (process_page opts page_number pg st)
        (process_pages opts (S page_number) rest)
  end.

(** State before the first page (source lines 395-411). *)
Definition initial_state (opts : Options) : PdfState :=
  {| st_total_detections := 0;
     st_detections_per_class := ∅;
     st_page_stats := [];
     st_preprocessing_applied := [];
     st_annotations_output := ∅;
     st_annotation_counter := 1;
     st_output_doc := [];
     st_preprocessing_viz_doc :=
       if (use_clahe opts || use_denoise opts || use_threshold opts)
          && bool_decide (is_Some (preprocessing_viz_path opts))
       then Some [] else None;
     st_calls := [] |}.

(** [process_pdf], on the opened source document. *)
Definition process_pdf (source_doc : list Page) (pdf_filename : string)
    (opts : Options) : attempt (Report * Effects) :=
  let total_pages := length source_doc in
  let two_pass_mode := use_denoise opts || use_threshold opts in
  attempt_bind (process_pages opts 0 source_doc (initial_state opts)) (λ st,
    let final_output : gmap string (gmap string PageEntry) :=
      {[ pdf_filename := st_annotations_output st ]} in
    Returns
      ({| report_annotations := final_output;
          total_pages := total_pages;
          total_detections := st_total_detections st;
          detections_per_class := st_detections_per_class st;
          page_stats := st_page_stats st;
          model_classes := model_names rt;
          preprocessing :=
            {| enabled := use_clahe opts || use_denoise opts || use_threshold opts;
               two_pass_mode := two_pass_mode;
               techniques := st_preprocessing_applied st |};
          thresholds :=
            {| confidence := conf_threshold opts;
               iou := iou_threshold opts;
               max_detections := opt_max_detections opts |} |},
       {| output_pdf := st_output_doc st;
          preprocessing_viz_pdf := st_preprocessing_viz_doc st;
          predictor_calls := st_calls st |})).

End Pipeline.

(** ** Reading a report *)

(** Sum of the values of a counting dictionary. *)
Definition dict_sum (d : gmap string nat) : nat := map_fold (λ _ v acc, (v + acc)%nat) 0%nat d.

(** The keys the source builds: [f"page_{n}"] and [f"annotation_{n}"]. *)
Definition page_key (n : nat) : string := "page_" +:+ pretty n.
Definition annotation_key (n : nat) : string := "annotation_" +:+ pretty n.

(** The entries of [annotations_output] for pages 1 to [n], in page order. *)
Definition entries_in_page_order (ao : gmap string PageEntry) (n : nat) : list PageEntry :=
  omap (λ k, ao !! page_key k) (seq 1 n).

(** The annotation identifiers of pages 1 to [n]: page order, then the order
    within each page. *)
Definition annotation_ids (ao : gmap string PageEntry) (n : nat) : list string :=
  fst <$> mjoin (annotations <$> entries_in_page_order ao n).

(** The running state of [process_pdf] after [k] pages is consistent: the
    total is the sum of the per-page counts and of the per-class counts, the
    next annotation number is one more than the total, pages 1 to [k] and no
    others have an entry, each page's count is the number of its annotation
    records and the sum of its per-class counts, and the identifiers run from
    [annotation_1] on without gaps. *)
Definition consistent (k : nat) (st : PdfState) : Prop :=
  st_total_detections st = sum_list (detections <$> st_page_stats st)
  ∧ st_annotation_counter st = S (st_total_detections st)
  ∧ dict_sum (st_detections_per_class st) = st_total_detections st
  ∧ dom (st_annotations_output st) = list_to_set (page_key <$> seq 1 k)
  ∧ annotation_ids (st_annotations_output st) k
    = annotation_key <$> seq 1 (st_total_detections st)
  ∧ page <$> st_page_stats st = seq 1 k
  ∧ Forall (λ ps, dict_sum (classes ps) = detections ps) (st_page_stats st)
  ∧ detections <$> st_page_stats st
    = (λ e, length (annotations e)) <$> entries_in_page_order (st_annotations_output st) k
  ∧ length (st_output_doc st) = k.

(** ** The upload serializer ([serializers.py])

    [PDFProcessSerializer.validate_pdf_file], the check the view runs on the
    uploaded file before it calls [process_pdf]. *)

Module serializers.

(** What the validator reads of the uploaded file. *)
Record UploadedFile := mkUpload { name : string; size : Z }.

(** [str.endswith] *)
Definition endswith (s suffix : string) : bool :=
  bool_decide (Stdlib.Strings.String.list_ascii_of_string suffix `suffix_of` Stdlib.Strings.String.list_ascii_of_string s).

Definition validate_pdf_file (value : UploadedFile) : attempt UploadedFile :=
  if negb (endswith (name value) ".pdf") then
    Raises "Only PDF files are allowed."
  else if (size value >? 50 * 1024 * 1024)%Z then
    Raises "File size must be under 50MB."
  else Returns value.

End serializers.

(** ** Sample data

    Concrete detections, results and collaborators on which the statements
    below are exercised. *)

Definition sig1 : Row6 :=
  mkRow6 (of_int 100) (of_int 200) (of_int 300) (of_int 260) (decimal 9 10) (of_int 0).
Definition sig2 : Row6 :=
  mkRow6 (of_int 400) (of_int 500) (of_int 640) (of_int 580) (decimal 8 10) (of_int 0).
Definition stamp1 : Row6 :=
  mkRow6 (of_int 10) (of_int 10) (of_int 50) (of_int 50) (decimal 7 10) (of_int 1).
Definition qr1 : Row6 :=
  mkRow6 (of_int 20) (of_int 15) (of_int 80) (of_int 75) (decimal 95 100) (of_int 2).
Definition tracked1 : Row7 :=
  mkRow7 (of_int 100) (of_int 200) (of_int 300) (of_int 260) (of_int 7)
         (decimal 9 10) (of_int 0).

Definition blank_image (w h : Z) : Image := mkImage (w, h) (λ _ _, (255, 255, 255)%Z).

(** A 500 x 400 point page, rasterised at any scale as a blank image. *)
Definition sample_page : Page :=
  mkPage (of_int 500, of_int 400)
         (λ scale, blank_image (py_int (of_int 500 * scale)) (py_int (of_int 400 * scale))).

(** A predictor that finds two signatures on a full page (width 1000) and a
    stamp and a QR code on anything else; OpenCV present, every filter the
    identity. *)
Definition sample_runtime : Runtime :=
  {| ndarray := Image;
     HAS_OPENCV := true;
     model_predict := λ image _ _ _,
       if Z.eqb (image_width image) 1000
       then mkPrediction (Some [sig1; sig2]) (image_height image, image_width image)
       else mkPrediction (Some [stamp1; qr1]) (image_height image, image_width image);
     model_names := {[ 0%Z := "signature"; 1%Z := "stamp"; 2%Z := "qr_code" ]};
     cv_from_pil := Returns;
     cv_clahe := Returns;
     cv_bilateral := Returns;
     cv_adaptive_threshold := Returns;
     cv_sharpen := Returns;
     cv_to_pil := Returns;
     pil_draw := λ image _, image;
     pil_comparison := λ original _ _ _, original |}.


(** OpenCV present, but the bilateral filter raises. *)
Definition runtime_failing_denoise : Runtime :=
  {| ndarray := Image;
     HAS_OPENCV := true;
     model_predict := model_predict sample_runtime;
     model_names := model_names sample_runtime;
     cv_from_pil := Returns;
     cv_clahe := Returns;
     cv_bilateral := λ _, Raises "out of memory";
     cv_adaptive_threshold := Returns;
     cv_sharpen := Returns;
     cv_to_pil := Returns;
     pil_draw := λ image _, image;
     pil_comparison := λ original _ _ _, original |}.

(** A predictor that never finds anything. *)
Definition blind_runtime : Runtime :=
  {| ndarray := Image;
     HAS_OPENCV := true;
     model_predict := λ image _ _ _,
       mkPrediction (Some []) (image_height image, image_width image);
     model_names := model_names sample_runtime;
     cv_from_pil := Returns;
     cv_clahe := Returns;
     cv_bilateral := Returns;
     cv_adaptive_threshold := Returns;
     cv_sharpen := Returns;
     cv_to_pil := Returns;
     pil_draw := λ image _, image;
     pil_comparison := λ original _ _ _, original |}.

Definition sample_options (clahe denoise threshold : bool) : Options :=
  {| conf_threshold := decimal 5 10;
     iou_threshold := decimal 45 100;
     opt_max_detections := 100;
     use_clahe := clahe;
     use_denoise := denoise;
     use_threshold := threshold;
     preprocessing_viz_path := None |}.


Definition result_of (t : Tensor) (shape : Z * Z) : Results :=
  mkResults (Some (mkBoxes t shape)) shape.

Definition two_signatures : Results := result_of (T6 [sig1; sig2]) (800, 1000)%Z.
Definition corner_raw : Results := result_of (T6 [stamp1; qr1]) (80, 100)%Z.
Definition one_tracked : Results := result_of (T7 [tracked1]) (800, 1000)%Z.
Definition one_untracked : Results := result_of (T6 [qr1]) (800, 1000)%Z.

(** ** Pages and their detections *)

(** The result the detection of [process_pdf] yields for a rasterised page:
    what [detect] leaves in [results], read off a run from the initial state. *)
Definition image_results (rt : Runtime) (opts : Options) (original : Image) : Results :=
  match detect rt opts 0 original (initial_state opts) with
  | Returns d => found_results d
  | Raises _ => mkResults None (0, 0)%Z
  end.

Definition page_results (rt : Runtime) (opts : Options) (pg : Page) : Results :=
  image_results rt opts (page_to_pil pg (decimal 2 1)).

(** The model's name for the class of a detection: the key under which
    [process_pdf] counts it. *)
Definition detection_label (class_names : gmap Z string) (d : Detection) : string :=
  class_label class_names (py_int (d_cls d)).

(** The annotation record [process_pdf] builds for a detection. *)
Definition annotation_of (d : Detection) : Annotation :=
  let out := to_document_space (d_box d) in
  mkAnnotation (class_label category_map (py_int (d_cls d))) (fst out) (snd out).

(** How often [name] occurs among [labels]. *)
Definition count_of (name : string) (labels : list string) : nat :=
  length (filter (λ l, l = name) labels).

(** A counting dictionary holds exactly the occurrence counts of [labels]:
    a key is present exactly when its label occurs. *)
Definition counts_match (d : gmap string nat) (labels : list string) : Prop :=
  ∀ name, d !! name
          = if Nat.eqb (count_of name labels) 0 then None
            else Some (count_of name labels).




(** The page of the output document: the page's detections drawn on its
    rasterised image. *)
Definition annotated_page (rt : Runtime) (opts : Options) (pg : Page) : Image :=
  fst (draw_detections rt (page_to_pil pg (decimal 2 1)) [page_results rt opts pg]
         (model_names rt)).

(** The labels of a page's detections, in detection order. *)
Definition page_labels (rt : Runtime) (opts : Options) (pg : Page) : list string :=
  detection_label (model_names rt) <$> detection_set (page_results rt opts pg).

(** The state of the page loop after the pages [prev] describes exactly those
    pages. *)
Definition traced (rt : Runtime) (opts : Options) (prev : list Page) (st : PdfState)
  : Prop :=
  st_output_doc st = annotated_page rt opts <$> prev
  ∧ Forall2 (λ pg e,
       snd <$> annotations e = annotation_of <$> detection_set (page_results rt opts pg)
       ∧ page_size e = (py_int (fst (page_rect pg)), py_int (snd (page_rect pg))))
      prev (entries_in_page_order (st_annotations_output st) (length prev))
  ∧ Forall2 (λ pg ps,
       detections ps = num_detections (page_results rt opts pg)
       ∧ counts_match (classes ps) (page_labels rt opts pg))
      prev (st_page_stats st)
  ∧ counts_match (st_detections_per_class st) (mjoin (page_labels rt opts <$> prev))
  ∧ st_total_detections st
    = length (mjoin ((λ pg, detection_set (page_results rt opts pg)) <$> prev)).

(** ** Regions and technique lists *)

(** Both corner points of [box] lie in the rectangle from [(x_lo, y_lo)] to
    [(x_hi, y_hi)]. *)
Definition box_in_region (box : Qc * Qc * Qc * Qc) (x_lo y_lo x_hi y_hi : Z) : Prop :=
  let '(x1, y1, x2, y2) := box in
  (of_int x_lo <= x1 ∧ x1 <= of_int x_hi) ∧ (of_int y_lo <= y1 ∧ y1 <= of_int y_hi)
  ∧ (of_int x_lo <= x2 ∧ x2 <= of_int x_hi) ∧ (of_int y_lo <= y2 ∧ y2 <= of_int y_hi).


(** * Properties *)

(** ** Basic facts about the tensor helpers *)

Lemma of_int_inj : Inj (=) (=) of_int.
Proof.
  intros a b H. unfold of_int in H.
  apply (f_equal this) in H. cbn [this Q2Qc] in H.
  apply Qred_eq_iff in H. unfold Qeq, inject_Z in H. cbn [Qnum Qden] in H. lia.
Qed.

Lemma isin_of_int allowed c : isin allowed (of_int c) = true ↔ c ∈ allowed.
Proof.
  unfold isin. rewrite bool_decide_eq_true, list_elem_of_fmap. split.
  - intros (c' & Heq & Hin). apply of_int_inj in Heq. now subst.
  - intros Hin. now exists c.
Qed.

Lemma isin_nil c : isin [] c = false.
Proof. unfold isin. apply bool_decide_eq_false. simpl. apply not_elem_of_nil. Qed.

Lemma tensor_len_detections t : length (tensor_detections t) = tensor_len t.
Proof. destruct t; simpl; apply length_fmap. Qed.

Lemma num_detections_length r : num_detections r = length (detection_set r).
Proof.
  unfold num_detections, detection_set, boxes_len.
  destruct (boxes r); simpl; [symmetry; apply tensor_len_detections | reflexivity].
Qed.

Lemma no_boxes_true r : no_boxes r = true ↔ num_detections r = 0%nat.
Proof.
  unfold no_boxes, num_detections. destruct (boxes r); simpl.
  - apply Nat.eqb_eq.
  - tauto.
Qed.

Lemma no_boxes_false r :
  no_boxes r = false → ∃ b, boxes r = Some b ∧ boxes_len b ≠ 0%nat.
Proof.
  unfold no_boxes. destruct (boxes r) as [b|]; [|discriminate].
  intros H. exists b. split; [reflexivity|]. now apply Nat.eqb_neq.
Qed.

Lemma no_boxes_detection_set r : no_boxes r = true → detection_set r = [].
Proof.
  rewrite no_boxes_true, num_detections_length. apply length_zero_iff_nil.
Qed.

Lemma tensor_len_shift t dx dy : tensor_len (shift_columns t dx dy) = tensor_len t.
Proof. destruct t; simpl; apply length_fmap. Qed.

Lemma tensor_detections_shift t dx dy :
  tensor_detections (shift_columns t dx dy)
  = translate_detection dx dy <$> tensor_detections t.
Proof.
  destruct t; simpl; rewrite <- !list_fmap_compose; apply list_fmap_ext;
    intros ? ? ?; reflexivity.
Qed.

(** Column by column: only [xyxy] changes. *)
Lemma shift_columns_columns t dx dy :
  tensor_xyxy (shift_columns t dx dy)
  = (λ '(x1, y1, x2, y2),
       (x1 + of_int dx, y1 + of_int dy, x2 + of_int dx, y2 + of_int dy))
      <$> tensor_xyxy t
  ∧ tensor_conf (shift_columns t dx dy) = tensor_conf t
  ∧ tensor_cls (shift_columns t dx dy) = tensor_cls t
  ∧ tensor_id (shift_columns t dx dy) = tensor_id t.
Proof.
  destruct t as [rows|rows]; unfold shift_columns, tensor_xyxy, tensor_conf, tensor_cls,
    tensor_id; rewrite <- !list_fmap_compose; repeat split; try f_equal;
    apply list_fmap_ext; intros ? [] ?; reflexivity.
Qed.



Lemma adjust_nonempty r dx dy b :
  boxes r = Some b → boxes_len b ≠ 0%nat →
  _adjust_detection_coordinates r dx dy
  = set_boxes r (Some (mkBoxes (shift_columns (data b) dx dy) (orig_shape r))).
Proof.
  intros Hb Hn. unfold _adjust_detection_coordinates, no_boxes. rewrite Hb.
  apply Nat.eqb_neq in Hn. now rewrite Hn.
Qed.

Lemma adjust_empty r dx dy :
  no_boxes r = true → _adjust_detection_coordinates r dx dy = r.
Proof. intros H. unfold _adjust_detection_coordinates. now rewrite H. Qed.

Lemma adjust_detection_set r dx dy :
  detection_set (_adjust_detection_coordinates r dx dy)
  = translate_detection dx dy <$> detection_set r.
Proof.
  destruct (no_boxes r) eqn:E.
  - rewrite adjust_empty by done. now rewrite (no_boxes_detection_set r E).
  - destruct (no_boxes_false r E) as (b & Hb & Hn).
    rewrite (adjust_nonempty r dx dy b Hb Hn).
    unfold detection_set. rewrite Hb. simpl. apply tensor_detections_shift.
Qed.

(** ** Translation of detections *)


(** ** Filtering by class *)

Lemma filter_fmap_comm {A B} (f : A → B) (P : B → Prop) `{∀ y, Decision (P y)}
    (l : list A) :
  filter P (f <$> l) = f <$> filter (λ x, P (f x)) l.
Proof.
  induction l as [|x l IH]; [reflexivity|].
  rewrite fmap_cons, !filter_cons.
  destruct (decide (P (f x))); [rewrite fmap_cons|]; now rewrite IH.
Qed.

Lemma tensor_detections_mask t allowed :
  tensor_detections (mask_rows t allowed)
  = filter (λ d, isin allowed (d_cls d) = true) (tensor_detections t).
Proof.
  destruct t; unfold tensor_detections, mask_rows; now rewrite filter_fmap_comm.
Qed.

Lemma mask_sum_detections t allowed :
  mask_sum t allowed
  = length (filter (λ d, isin allowed (d_cls d) = true) (tensor_detections t)).
Proof.
  unfold mask_sum, tensor_cls, tensor_detections.
  destruct t; rewrite !filter_fmap_comm, !length_fmap; reflexivity.
Qed.

Lemma filter_detection_set r allowed :
  detection_set (_filter_detections_by_class r allowed)
  = filter (λ d, isin allowed (d_cls d) = true) (detection_set r).
Proof.
  unfold _filter_detections_by_class.
  destruct (no_boxes r) eqn:E.
  - now rewrite (no_boxes_detection_set r E).
  - destruct (no_boxes_false r E) as (b & Hb & _). rewrite Hb.
    unfold detection_set at 2. rewrite Hb. simpl.
    destruct (Nat.eqb_spec (mask_sum (data b) allowed) 0) as [Hz|Hz].
    + rewrite mask_sum_detections in Hz. apply length_zero_iff_nil in Hz.
      now rewrite Hz.
    + unfold detection_set. simpl. apply tensor_detections_mask.
Qed.

Lemma mask_rows_all t allowed :
  (∀ d, d ∈ tensor_detections t → isin allowed (d_cls d) = true) →
  mask_rows t allowed = t.
Proof.
  destruct t as [rows|rows]; simpl; intros H; f_equal.
  - induction rows as [|x rows IH]; [reflexivity|].
    rewrite filter_cons_True.
    + f_equal. apply IH. intros d Hd. apply H. simpl. now apply list_elem_of_further.
    + apply (H (mkDetection (r6_x1 x, r6_y1 x, r6_x2 x, r6_y2 x) None (r6_conf x) (r6_cls x))).
      simpl. apply list_elem_of_here.
  - induction rows as [|x rows IH]; [reflexivity|].
    rewrite filter_cons_True.
    + f_equal. apply IH. intros d Hd. apply H. simpl. now apply list_elem_of_further.
    + apply (H (mkDetection (r7_x1 x, r7_y1 x, r7_x2 x, r7_y2 x) (Some (r7_track_id x))
                  (r7_conf x) (r7_cls x))).
      simpl. apply list_elem_of_here.
Qed.

Lemma isin_spec allowed c :
  isin allowed c = true ↔ ∃ k, k ∈ allowed ∧ c = of_int k.
Proof.
  unfold isin. rewrite bool_decide_eq_true, list_elem_of_fmap. split.
  - intros (k & -> & Hk). eauto.
  - intros (k & Hk & ->). eauto.
Qed.

(** C5. [_filter_detections_by_class] keeps, in order, exactly the
    detections whose class equals one of the allowed class ids; it always
    returns a result, and when no detection matches that result is empty.
    With an empty list of allowed classes the result is always empty, and with
    a list that covers every class present in the input the detections are
    those of the input. *)
Theorem filter_detections_by_class_spec (r : Results) (allowed : list Z) :
  let r' := _filter_detections_by_class r allowed in
  (∀ d, d ∈ detection_set r' ↔
        d ∈ detection_set r ∧ ∃ k, k ∈ allowed ∧ d_cls d = of_int k)
  ∧ detection_set r' = filter (λ d, isin allowed (d_cls d) = true) (detection_set r)
  ∧ ((∀ d, d ∈ detection_set r → ¬ ∃ k, k ∈ allowed ∧ d_cls d = of_int k) →
       no_boxes r' = true ∧ detection_set r' = [])
  ∧ no_boxes (_filter_detections_by_class r []) = true
  ∧ detection_set (_filter_detections_by_class r []) = []
  ∧ ((∀ d, d ∈ detection_set r → ∃ k, k ∈ allowed ∧ d_cls d = of_int k) →
       boxes_data r' = boxes_data r ∧ detection_set r' = detection_set r).
Proof.
  intros r'. subst r'.
  assert (Hnone : ∀ al,
    (∀ d, d ∈ detection_set r → isin al (d_cls d) = false) →
    detection_set (_filter_detections_by_class r al) = []).
  { intros al H. rewrite filter_detection_set.
    induction (detection_set r) as [|d l IH]; [reflexivity|].
    rewrite filter_cons_False.
    - apply IH. intros d' Hd'. apply H. now apply list_elem_of_further.
    - rewrite (H d); [discriminate | apply list_elem_of_here]. }
  assert (Hempty : ∀ x, detection_set x = [] → no_boxes x = true).
  { intros x Hx. apply no_boxes_true. rewrite num_detections_length. now rewrite Hx. }
  split; [|split; [|split; [|split; [|split]]]].
  - intros d. rewrite filter_detection_set, list_elem_of_filter, isin_spec. tauto.
  - apply filter_detection_set.
  - intros H.
    assert (Hd : detection_set (_filter_detections_by_class r allowed) = []).
    { apply Hnone. intros d Hd. apply not_true_is_false. rewrite isin_spec. now apply H. }
    split; [now apply Hempty | exact Hd].
  - apply Hempty, Hnone. intros d _. apply isin_nil.
  - apply Hnone. intros d _. apply isin_nil.
  - intros H. assert (Hall : ∀ d, d ∈ detection_set r → isin allowed (d_cls d) = true).
    { intros d Hd. apply isin_spec. now apply H. }
    assert (Hdata : boxes_data (_filter_detections_by_class r allowed) = boxes_data r).
    { unfold _filter_detections_by_class.
      destruct (no_boxes r) eqn:E; [reflexivity|].
      destruct (no_boxes_false r E) as (b & Hb & Hn). rewrite Hb.
      assert (Hall' : ∀ d, d ∈ tensor_detections (data b) → isin allowed (d_cls d) = true).
      { intros d Hd. apply Hall. unfold detection_set. now rewrite Hb. }
      destruct (Nat.eqb_spec (mask_sum (data b) allowed) 0) as [Hz|Hz].
      - exfalso. rewrite mask_sum_detections in Hz.
        rewrite <- tensor_detections_mask, (mask_rows_all _ _ Hall') in Hz.
        rewrite tensor_len_detections in Hz. now apply Hn.
      - unfold boxes_data. rewrite Hb. simpl. f_equal. now apply mask_rows_all. }
    split; [exact Hdata|].
    unfold boxes_data in Hdata. unfold detection_set.
    destruct (boxes (_filter_detections_by_class r allowed)), (boxes r);
      simpl in *; congruence.
Qed.

(** ** Merging two results *)

Lemma merge_left_empty a b :
  no_boxes a = true → _merge_detections a b = Returns b.
Proof. intros H. unfold _merge_detections. now rewrite H. Qed.

Lemma merge_right_empty a b :
  no_boxes a = false → no_boxes b = true → _merge_detections a b = Returns a.
Proof. intros Ha Hb. unfold _merge_detections. now rewrite Ha, Hb. Qed.

Lemma torch_cat_same_width ta tb :
  tensor_width ta = tensor_width tb →
  ∃ t, torch_cat ta tb = Returns t
       ∧ tensor_detections t = tensor_detections ta ++ tensor_detections tb
       ∧ tensor_len t = (tensor_len ta + tensor_len tb)%nat.
Proof.
  destruct ta as [ra|ra], tb as [rb|rb]; intros H; try discriminate H; eexists;
    (split; [reflexivity|]); unfold tensor_detections, tensor_len;
    rewrite fmap_app, length_app; split; reflexivity.
Qed.

Lemma torch_cat_other_width ta tb :
  tensor_width ta ≠ tensor_width tb → ∃ msg, torch_cat ta tb = Raises msg.
Proof. destruct ta, tb; simpl; intros H; try congruence; eauto. Qed.

Lemma merge_nonempty a b ba bb :
  boxes a = Some ba → boxes_len ba ≠ 0%nat →
  boxes b = Some bb → boxes_len bb ≠ 0%nat →
  _merge_detections a b
  = attempt_bind (torch_cat (data ba) (data bb)) (λ merged_data,
      Returns (set_boxes a (Some (mkBoxes merged_data (orig_shape a))))).
Proof.
  intros Ha Hna Hb Hnb. unfold _merge_detections, no_boxes. rewrite Ha, Hb.
  apply Nat.eqb_neq in Hna, Hnb. now rewrite Hna, Hnb.
Qed.

(** Merging never raises when the two results have the same layout, and the
    merged detections are those of the first followed by those of the second. *)
Lemma merge_same_layout a b :
  (no_boxes a = false → no_boxes b = false → layout a = layout b) →
  ∃ m, _merge_detections a b = Returns m
       ∧ detection_set m = detection_set a ++ detection_set b.
Proof.
  intros Hl. destruct (no_boxes a) eqn:Ea.
  - exists b. rewrite merge_left_empty by done.
    now rewrite (no_boxes_detection_set a Ea).
  - destruct (no_boxes b) eqn:Eb.
    + exists a. rewrite merge_right_empty by done.
      rewrite (no_boxes_detection_set b Eb). now rewrite app_nil_r.
    + destruct (no_boxes_false a Ea) as (ba & Ha & Hna).
      destruct (no_boxes_false b Eb) as (bb & Hb & Hnb).
      rewrite (merge_nonempty a b ba bb) by done.
      specialize (Hl eq_refl eq_refl). unfold layout in Hl. rewrite Ha, Hb in Hl.
      simpl in Hl. injection Hl as Hl.
      destruct (torch_cat_same_width _ _ Hl) as (t & -> & Hd & _). simpl.
      eexists. split; [reflexivity|].
      unfold detection_set. rewrite Ha, Hb. simpl. exact Hd.
Qed.

(** C2, with the layout condition. [_merge_detections] returns the second result as it is
    when the first is empty, and the first as it is when only the second is
    empty. When both are non-empty and have the same layout (both with or both
    without the tracking column) it returns the detections of the first
    followed by those of the second, every field as it was, so
    [len(A) + len(B)] detections; when the layouts differ it raises. Whenever
    [merge(A, B)] returns, merging its value with an empty result returns the
    same detections. *)
Theorem merge_detections_spec (a b : Results) :
  (no_boxes a = true → _merge_detections a b = Returns b)
  ∧ (no_boxes a = false → no_boxes b = true → _merge_detections a b = Returns a)
  ∧ (no_boxes a = false → no_boxes b = false → layout a = layout b →
       ∃ m, _merge_detections a b = Returns m
            ∧ detection_set m = detection_set a ++ detection_set b
            ∧ num_detections m = (num_detections a + num_detections b)%nat)
  ∧ (no_boxes a = false → no_boxes b = false → layout a ≠ layout b →
       ∃ msg, _merge_detections a b = Raises msg)
  ∧ (∀ m e, _merge_detections a b = Returns m → no_boxes e = true →
       ∃ m', _merge_detections m e = Returns m'
             ∧ detection_set m' = detection_set m).
Proof.
  split; [apply merge_left_empty|].
  split; [apply merge_right_empty|].
  split; [|split].
  - intros Ha Hb Hl.
    destruct (merge_same_layout a b (λ _ _, Hl)) as (m & Hm & Hd).
    exists m. split; [exact Hm|]. split; [exact Hd|].
    rewrite !num_detections_length, Hd. apply length_app.
  - intros Ea Eb Hl.
    destruct (no_boxes_false a Ea) as (ba & Ha & Hna).
    destruct (no_boxes_false b Eb) as (bb & Hb & Hnb).
    rewrite (merge_nonempty a b ba bb) by done.
    unfold layout in Hl. rewrite Ha, Hb in Hl. simpl in Hl.
    destruct (torch_cat_other_width (data ba) (data bb)) as (msg & ->);
      [congruence|]. simpl. eauto.
  - intros m e _ He. destruct (no_boxes m) eqn:Em.
    + exists e. rewrite merge_left_empty by done.
      now rewrite (no_boxes_detection_set m Em), (no_boxes_detection_set e He).
    + exists m. now rewrite merge_right_empty.
Qed.

(** C2 does not hold without the layout condition: two non-empty results,
    one with the tracking column and one without, are not concatenated; the
    merge raises. *)
Lemma merge_mixed_layouts_raises :
  no_boxes one_tracked = false
  ∧ no_boxes one_untracked = false
  ∧ _merge_detections one_tracked one_untracked
    = Raises "Sizes of tensors must match except in dimension 0"
  ∧ ∀ m, _merge_detections one_tracked one_untracked ≠ Returns m.
Proof. repeat split. intros m H. discriminate H. Qed.

(** ** Corner extraction *)

Lemma py_int_floor (q : Qc) : 0 <= q → py_int q = Qfloor q.
Proof.
  destruct q as [[n d] Hc]. unfold py_int, Qcle. change (this 0) with 0%Q.
  unfold Qle. cbn [this Qnum Qden Qfloor]. intros H.
  apply Z.quot_div_nonneg; lia.
Qed.

Lemma Qc_nonneg_this (q : Qc) : 0 <= q → (0 <= this q)%Q.
Proof. unfold Qcle. now change (this 0) with 0%Q. Qed.

Lemma of_int_nonneg (z : Z) : (0 ≤ z)%Z → 0 <= of_int z.
Proof.
  intros H. unfold Qcle, of_int. change (this 0) with 0%Q.
  cbn [this Q2Qc]. rewrite !Qred_correct.
  unfold Qle, inject_Z. cbn [Qnum Qden]. lia.
Qed.

Lemma Qc_mult_nonneg (a b : Qc) : 0 <= a → 0 <= b → 0 <= a * b.
Proof.
  unfold Qcle. change (this 0) with 0%Q.
  cbn [this Qcmult Q2Qc]. rewrite !Qred_correct.
  apply Qmult_le_0_compat.
Qed.

Lemma py_int_mult_floor (a b : Qc) :
  0 <= a → 0 <= b → py_int (a * b) = Qfloor (this a * this b)%Q.
Proof.
  intros Ha Hb. rewrite py_int_floor by now apply Qc_mult_nonneg.
  apply Qfloor_comp. cbn [this Qcmult Q2Qc]. apply Qred_correct.
Qed.

Lemma floor_scaled_nonneg (z : Z) (f : Qc) :
  (0 ≤ z)%Z → 0 <= f → (0 ≤ Qfloor (this (of_int z) * this f)%Q)%Z.
Proof.
  intros Hz Hf. change 0%Z with (Qfloor 0). apply Qfloor_resp_le.
  apply Qmult_le_0_compat; apply Qc_nonneg_this; [now apply of_int_nonneg | exact Hf].
Qed.

Lemma floor_scaled_le (z : Z) (f : Qc) :
  (0 ≤ z)%Z → f <= 1 → (Qfloor (of_int z * f) ≤ z)%Z.
Proof.
  intros Hz Hf. rewrite <- (Qfloor_Z z) at 2. apply Qfloor_resp_le.
  unfold Qcle in Hf. change (this 1) with 1%Q in Hf.
  unfold of_int. cbn [this Qcmult Q2Qc]. rewrite !Qred_correct.
  assert (Hz' : (0 <= inject_Z z)%Q) by (unfold Qle, inject_Z; cbn [Qnum Qden]; lia).
  nra.
Qed.


(** ** The preprocessing adapter *)

Lemma preprocess_image_unavailable rt image c d t :
  HAS_OPENCV rt = false →
  preprocess_image rt image c d t
  = (image, mkInfo ["Preprocessing unavailable (OpenCV not installed)"] (size image) None).
Proof. intros H. unfold preprocess_image. now rewrite H. Qed.

(** Every technique name a run of the stages appends comes after what was
    already in the list. *)
Lemma preprocess_stages_extends rt img_cv c d t applied0 :
  ∃ more, fst (preprocess_stages rt img_cv c d t applied0) = applied0 ++ more.
Proof.
  unfold preprocess_stages, stage, try_bind, try_call, try_append, try_ret,
    try_len_applied.
  destruct c, d, t; simpl;
    repeat match goal with
      | |- context [match ?op ?x with Returns _ => _ | Raises _ => _ end] =>
          destruct (op x); simpl
      | |- context [bool_decide ?P] => destruct (bool_decide P); simpl
      end;
    rewrite <- ?app_assoc; eauto using app_nil_r.
  all: exists []; now rewrite app_nil_r.
Qed.



(** A filter that raises after CLAHE was applied: the input image comes back,
    with CLAHE and the error note in the technique list. *)
Example preprocess_denoise_fails :
  preprocess_image runtime_failing_denoise (blank_image 1000 800) true true false
  = (blank_image 1000 800,
     mkInfo ["CLAHE (contrast enhancement)";
             "Error during preprocessing: out of memory"] (1000, 800)%Z None).
Proof. reflexivity. Qed.

(** ** Conversion to document space *)




Ltac to_Q :=
  unfold within_tolerance, Qcle, Qclt, Qcdiv, Qcminus, Qcplus, Qcmult, Qcopp, Qcinv,
    scale_factor, decimal in *;
  cbn [this Q2Qc] in *;
  repeat match goal with
    | H : context [Qred _] |- _ => rewrite Qred_correct in H
    | |- context [Qred _] => rewrite Qred_correct
    end;
  change (/ 2)%Q with (1 # 2)%Q in *.





(** The annotation loop reports exactly this conversion for each box. *)
Lemma annotate_box_reports rt st x1 y1 x2 y2 conf cls :
  last (page_annotations (annotate_box rt st (x1, y1, x2, y2, conf, cls)))
  = Some ("annotation_" +:+ pretty (annotation_counter st),
          mkAnnotation (class_label category_map (py_int cls))
            (fst (to_document_space (x1, y1, x2, y2)))
            (snd (to_document_space (x1, y1, x2, y2)))).
Proof. unfold annotate_box. cbn. now rewrite last_snoc. Qed.

(** ** The two detection modes *)

Lemma tensor_width_mask t allowed : tensor_width (mask_rows t allowed) = tensor_width t.
Proof. now destruct t. Qed.

Lemma tensor_width_shift t dx dy : tensor_width (shift_columns t dx dy) = tensor_width t.
Proof. now destruct t. Qed.

Lemma layout_filter r allowed :
  no_boxes (_filter_detections_by_class r allowed) = false →
  layout (_filter_detections_by_class r allowed) = layout r.
Proof.
  unfold _filter_detections_by_class. destruct (no_boxes r) eqn:E; [congruence|].
  destruct (no_boxes_false r E) as (b & Hb & _). rewrite Hb.
  destruct (Nat.eqb (mask_sum (data b) allowed) 0); [discriminate|].
  intros _. unfold layout. rewrite Hb. simpl. now rewrite tensor_width_mask.
Qed.

Lemma layout_adjust r dx dy :
  layout (_adjust_detection_coordinates r dx dy) = layout r.
Proof.
  destruct (no_boxes r) eqn:E.
  - now rewrite adjust_empty.
  - destruct (no_boxes_false r E) as (b & Hb & Hn).
    rewrite (adjust_nonempty r dx dy b Hb Hn). unfold layout. rewrite Hb. simpl.
    now rewrite tensor_width_shift.
Qed.

Lemma layout_prediction p :
  no_boxes (results_of_prediction p) = false →
  layout (results_of_prediction p) = Some 6%nat.
Proof.
  unfold no_boxes, layout, results_of_prediction. simpl.
  destruct (pred_boxes p); [reflexivity | discriminate].
Qed.

Lemma no_boxes_adjust r dx dy :
  no_boxes (_adjust_detection_coordinates r dx dy) = no_boxes r.
Proof.
  destruct (no_boxes r) eqn:E.
  - now rewrite adjust_empty.
  - apply not_true_is_false. rewrite no_boxes_true, num_detections_length.
    rewrite adjust_detection_set, length_fmap, <- num_detections_length.
    rewrite <- no_boxes_true. congruence.
Qed.

Section Detection.

Context (rt : Runtime).

(** What the corner pass computes and which image it hands to the predictor. *)
Lemma detect_on_bottom_right_corner_eq image conf iou max_det corner_size calls :
  let out := _extract_bottom_right_corner image
               (Some (default corner_size_default corner_size)) in
  let corner := fst out in
  let raw := results_of_prediction (model_predict rt corner conf iou max_det) in
  let '(result, calls') :=
    _detect_on_bottom_right_corner rt image conf iou max_det corner_size calls in
  calls' = calls ++ [corner]
  ∧ result = _adjust_detection_coordinates (_filter_detections_by_class raw [2%Z])
               (fst (snd out)) (snd (snd out))
  ∧ (no_boxes result = false → layout result = Some 6%nat).
Proof.
  unfold _detect_on_bottom_right_corner, predict.
  destruct (_extract_bottom_right_corner image _) as [corner [x_offset y_offset]].
  cbn [fst snd].
  set (raw := results_of_prediction _).
  set (kept := _filter_detections_by_class raw [2%Z]).
  split; [reflexivity|].
  destruct (no_boxes kept) eqn:E; cbn [negb].
  - rewrite adjust_empty by done. split; [reflexivity|]. congruence.
  - split; [reflexivity|]. intros _. rewrite layout_adjust.
    subst kept. rewrite layout_filter by done. apply layout_prediction.
    destruct (no_boxes raw) eqn:E'; [|exact E'].
    unfold _filter_detections_by_class in E. rewrite E' in E. congruence.
Qed.

(** Class 2 is the QR class: what the corner pass keeps and where it puts it. *)
Lemma corner_pass_detections (raw : Results) (x_offset y_offset : Z) :
  detection_set
    (_adjust_detection_coordinates (_filter_detections_by_class raw [2%Z])
       x_offset y_offset)
  = translate_detection x_offset y_offset
      <$> filter (λ d, d_cls d = of_int 2) (detection_set raw).
Proof.
  rewrite adjust_detection_set, filter_detection_set. f_equal.
  apply list_filter_iff. intros d. rewrite isin_spec. split.
  - intros (k & Hk & ->). apply list_elem_of_singleton in Hk. now subst.
  - intros ->. exists 2%Z. split; [apply list_elem_of_here | reflexivity].
Qed.

End Detection.

Section DetectionModes.

Context (rt : Runtime).

Lemma preprocess_and_record_image c d t page_number original st :
  fst (fst (preprocess_and_record rt c d t page_number original st))
  = fst (preprocess_image rt original c d t).
Proof.
  unfold preprocess_and_record. now destruct (preprocess_image rt original c d t).
Qed.

Lemma detect_single_pass opts page_number original st :
  use_denoise opts || use_threshold opts = false →
  ∃ d, detect rt opts page_number original st = Returns d
       ∧ found_calls d = st_calls st ++ [image_to_detect rt opts original]
       ∧ found_results d
         = results_of_prediction
             (model_predict rt (image_to_detect rt opts original) (conf_threshold opts)
                (iou_threshold opts) (opt_max_detections opts)).
Proof.
  intros H. unfold detect, image_to_detect. rewrite H.
  destruct (use_clahe opts).
  - pose proof (preprocess_and_record_image true false false page_number original st) as Hp.
    destruct (preprocess_and_record rt true false false page_number original st)
      as [[processed appl] viz].
    cbn [fst] in Hp. subst processed. unfold predict. eauto.
  - unfold predict. eauto.
Qed.

Lemma detect_two_pass opts page_number original st :
  use_denoise opts || use_threshold opts = true →
  let processed :=
    fst (preprocess_image rt original (use_clahe opts) (use_denoise opts)
           (use_threshold opts)) in
  let out := _extract_bottom_right_corner processed None in
  let corner := fst out in
  let pass1 :=
    results_of_prediction
      (model_predict rt original (conf_threshold opts) (iou_threshold opts)
         (opt_max_detections opts)) in
  let raw2 :=
    results_of_prediction
      (model_predict rt corner (conf_threshold opts) (iou_threshold opts)
         (opt_max_detections opts)) in
  let pass2 :=
    _adjust_detection_coordinates (_filter_detections_by_class raw2 [2%Z])
      (fst (snd out)) (snd (snd out)) in
  ∃ d, detect rt opts page_number original st = Returns d
       ∧ found_calls d = st_calls st ++ [original; corner]
       ∧ _merge_detections pass1 pass2 = Returns (found_results d)
       ∧ detection_set (found_results d) = detection_set pass1 ++ detection_set pass2.
Proof.
  intros H processed out corner pass1 raw2 pass2.
  unfold detect. rewrite H. unfold predict at 1.
  pose proof (preprocess_and_record_image (use_clahe opts) (use_denoise opts)
                (use_threshold opts) page_number original st) as Hp.
  destruct (preprocess_and_record rt _ _ _ page_number original st)
    as [[processed' appl] viz].
  cbn [fst] in Hp. subst processed'. fold processed.
  pose proof (detect_on_bottom_right_corner_eq rt processed (conf_threshold opts)
                (iou_threshold opts) (opt_max_detections opts) None
                (st_calls st ++ [original])) as Hc.
  cbn zeta in Hc.
  destruct (_detect_on_bottom_right_corner rt processed _ _ _ None _) as [r2 calls'].
  destruct Hc as (Hcalls & Hr2 & Hlay).
  change (_extract_bottom_right_corner processed
            (Some (default corner_size_default None))) with out in Hcalls, Hr2.
  fold corner in Hcalls, Hr2. fold raw2 in Hr2. fold pass2 in Hr2. subst r2 calls'.
  destruct (merge_same_layout pass1 pass2) as (m & Hm & Hd).
  { intros E1 E2. rewrite (Hlay E2). now apply layout_prediction. }
  fold pass1. rewrite Hm. cbn [attempt_bind]. eexists. split; [reflexivity|].
  cbn [found_calls found_results]. rewrite <- app_assoc. auto.
Qed.

End DetectionModes.

(** C1. In two-pass mode (denoise or threshold requested) the detection of a
    page always completes, and invokes the predictor exactly twice: first on
    the original rasterised image, then on the bottom-right corner (the default
    10 percent) of the image returned by [preprocess_image] with the requested
    techniques. The page's detections are those of pass 1 followed by the
    class-2 (QR) detections of pass 2, each moved by the corner's
    [(x_offset, y_offset)]. So when pass 1 yields two signatures and the QR
    detections of pass 2 are one detection [q], the merged set has exactly
    three detections and the third is [q] translated by the offsets. *)
Theorem two_pass_detection_spec (rt : Runtime) (opts : Options) (page_number : nat)
    (original : Image) (st : PdfState) :
  use_denoise opts || use_threshold opts = true →
  let processed :=
    fst (preprocess_image rt original (use_clahe opts) (use_denoise opts)
           (use_threshold opts)) in
  let out := _extract_bottom_right_corner processed None in
  let corner := fst out in
  let x_offset := fst (snd out) in
  let y_offset := snd (snd out) in
  let pass1 :=
    results_of_prediction
      (model_predict rt original (conf_threshold opts) (iou_threshold opts)
         (opt_max_detections opts)) in
  let raw2 :=
    results_of_prediction
      (model_predict rt corner (conf_threshold opts) (iou_threshold opts)
         (opt_max_detections opts)) in
  ∃ d, detect rt opts page_number original st = Returns d
       ∧ found_calls d = st_calls st ++ [original; corner]
       ∧ corner = crop processed (x_offset, y_offset, image_width processed,
                                  image_height processed)
       ∧ detection_set (found_results d)
         = detection_set pass1
           ++ (translate_detection x_offset y_offset
                 <$> filter (λ d, d_cls d = of_int 2) (detection_set raw2))
       ∧ (∀ s1 s2 q,
            detection_set pass1 = [s1; s2] →
            d_cls s1 = of_int 0 → d_cls s2 = of_int 0 →
            filter (λ d, d_cls d = of_int 2) (detection_set raw2) = [q] →
            detection_set (found_results d)
            = [s1; s2; translate_detection x_offset y_offset q]
            ∧ num_detections (found_results d) = 3%nat
            ∧ ∀ a b c e, d_box q = (a, b, c, e) →
                d_box <$> last (detection_set (found_results d))
                = Some (a + of_int x_offset, b + of_int y_offset,
                        c + of_int x_offset, e + of_int y_offset)).
Proof.
  intros H processed out corner x_offset y_offset pass1 raw2.
  destruct (detect_two_pass rt opts page_number original st H)
    as (d & Hd & Hcalls & _ & Hset).
  cbn zeta in Hcalls, Hset. fold processed out corner pass1 raw2 in Hcalls, Hset.
  rewrite corner_pass_detections in Hset. fold x_offset y_offset in Hset.
  exists d. split; [exact Hd|]. split; [exact Hcalls|].
  split.
  { subst corner x_offset y_offset out. unfold _extract_bottom_right_corner.
    unfold image_width, image_height. destruct (size processed). reflexivity. }
  split; [exact Hset|].
  intros s1 s2 q H1 _ _ H2. rewrite H1, H2 in Hset. cbn in Hset.
  split; [exact Hset|]. split.
  - rewrite num_detections_length, Hset. reflexivity.
  - intros a b c e Hq. rewrite Hset. cbn. unfold translate_detection. now rewrite Hq.
Qed.

(** ** Counting dictionaries *)

Lemma dict_sum_empty : dict_sum ∅ = 0%nat.
Proof. unfold dict_sum. apply map_fold_empty. Qed.

Lemma dict_sum_insert_fresh (d : gmap string nat) k v :
  d !! k = None → dict_sum (<[k := v]> d) = (v + dict_sum d)%nat.
Proof.
  intros H. unfold dict_sum.
  rewrite map_fold_insert_L; [reflexivity | | exact H].
  intros. lia.
Qed.

Lemma dict_sum_count_up (d : gmap string nat) k :
  dict_sum (count_up d k) = S (dict_sum d).
Proof.
  unfold count_up. destruct (d !! k) as [v|] eqn:E; simpl.
  - rewrite <- (insert_delete_id d k v E) at 2.
    rewrite <- insert_delete_eq.
    rewrite !dict_sum_insert_fresh by apply lookup_delete_eq. lia.
  - rewrite dict_sum_insert_fresh by exact E. lia.
Qed.

(** ** The annotation loop *)

Lemma tensor_view_length t : length (tensor_view t) = tensor_len t.
Proof. destruct t; simpl; apply length_fmap. Qed.

Section AnnotationLoop.

Context (rt : Runtime).

Lemma annotate_loop rows : ∀ st,
  let st' := foldl (annotate_box rt) st rows in
  annotation_counter st' = (annotation_counter st + length rows)%nat
  ∧ fst <$> page_annotations st'
    = (fst <$> page_annotations st)
      ++ (annotation_key <$> seq (annotation_counter st) (length rows))
  ∧ dict_sum (page_classes st') = (dict_sum (page_classes st) + length rows)%nat
  ∧ dict_sum (loop_per_class st') = (dict_sum (loop_per_class st) + length rows)%nat.
Proof.
  induction rows as [|row rows IH]; intros st.
  - cbn. rewrite !Nat.add_0_r, app_nil_r. auto.
  - cbn [foldl length]. specialize (IH (annotate_box rt st row)).
    cbn zeta in IH. destruct IH as (Hc & Hids & Hp & Hd).
    assert (Hstep : annotation_counter (annotate_box rt st row) = S (annotation_counter st)
            ∧ fst <$> page_annotations (annotate_box rt st row)
              = (fst <$> page_annotations st) ++ [annotation_key (annotation_counter st)]
            ∧ dict_sum (page_classes (annotate_box rt st row)) = S (dict_sum (page_classes st))
            ∧ dict_sum (loop_per_class (annotate_box rt st row))
              = S (dict_sum (loop_per_class st))).
    { destruct row as [[[[[x1 y1] x2] y2] conf] cls]. unfold annotate_box.
      cbn [annotation_counter page_annotations page_classes loop_per_class
           to_document_space].
      rewrite fmap_app, !dict_sum_count_up. cbn. repeat split; lia. }
    destruct Hstep as (Sc & Sids & Sp & Sd).
    rewrite Hc, Hids, Hp, Hd, Sc, Sids, Sp, Sd.
    cbn [seq fmap list_fmap]. rewrite <- app_assoc. cbn.
    repeat split; lia.
Qed.

Lemma build_annotations_spec results counter per_class :
  let out := build_annotations rt results counter per_class in
  fst out = num_detections results
  ∧ annotation_counter (snd out) = (counter + num_detections results)%nat
  ∧ fst <$> page_annotations (snd out)
    = annotation_key <$> seq counter (num_detections results)
  ∧ length (page_annotations (snd out)) = num_detections results
  ∧ dict_sum (page_classes (snd out)) = num_detections results
  ∧ dict_sum (loop_per_class (snd out))
    = (dict_sum per_class + num_detections results)%nat.
Proof.
  unfold build_annotations, num_detections.
  destruct (boxes results) as [b|]; cbn [fst snd from_option].
  - pose proof (annotate_loop (tensor_view (data b)) (mkLoop counter [] ∅ per_class)) as H.
    cbn zeta in H. rewrite tensor_view_length in H.
    cbn [annotation_counter page_annotations page_classes loop_per_class] in H.
    rewrite dict_sum_empty in H. destruct H as (Hc & Hids & Hp & Hd).
    unfold boxes_len. rewrite fmap_nil, app_nil_l in Hids.
    split; [reflexivity|]. split; [exact Hc|]. split; [exact Hids|].
    split; [|split; [exact Hp | exact Hd]].
    rewrite <- (length_fmap fst), Hids. now rewrite length_fmap, length_seq.
  - cbn [annotation_counter page_annotations page_classes loop_per_class seq fmap
         list_fmap length].
    rewrite dict_sum_empty, !Nat.add_0_r. auto 10.
Qed.

Lemma build_annotations_nothing results counter per_class :
  num_detections results = 0%nat →
  build_annotations rt results counter per_class
  = (0%nat, mkLoop counter [] ∅ per_class).
Proof.
  unfold build_annotations, num_detections.
  destruct (boxes results) as [b|]; cbn [from_option]; [|reflexivity].
  unfold boxes_len. intros H. rewrite H.
  rewrite <- tensor_view_length in H. apply length_zero_iff_nil in H.
  now rewrite H.
Qed.

End AnnotationLoop.

(** ** The page loop *)

Lemma page_key_inj : Inj (=) (=) page_key.
Proof.
  intros a b H. unfold page_key in H.
  apply (inj (String.append "page_")) in H. now apply (inj pretty) in H.
Qed.

Lemma entries_in_page_order_insert (ao : gmap string PageEntry) k e :
  entries_in_page_order (<[page_key (S k) := e]> ao) (S k)
  = entries_in_page_order ao k ++ [e].
Proof.
  unfold entries_in_page_order. rewrite seq_S, omap_app. f_equal.
  - assert (H : ∀ l : list nat, (∀ j, j ∈ l → j ≠ S k) →
        omap (λ j, <[page_key (S k) := e]> ao !! page_key j) l
        = omap (λ j, ao !! page_key j) l).
    { induction l as [|j l IH]; intros Hl; [reflexivity|]. cbn.
      rewrite lookup_insert_ne.
      - rewrite IH; [reflexivity|]. intros j' Hj'. apply Hl. now right.
      - intros Heq. apply page_key_inj in Heq. symmetry in Heq. revert Heq.
        apply Hl. now left. }
    apply H. intros j Hj. apply elem_of_seq in Hj. lia.
  - cbn. now rewrite lookup_insert_eq.
Qed.

Lemma sum_list_append (l1 l2 : list nat) :
  sum_list (l1 ++ l2) = (sum_list l1 + sum_list l2)%nat.
Proof. induction l1 as [|x l IH]; cbn; [lia|]. rewrite IH. lia. Qed.

Lemma seq_app_next (a n m : nat) : seq a n ++ seq (a + n) m = seq a (n + m).
Proof. symmetry. apply seq_app. Qed.

Section PageLoop.

Context (rt : Runtime).

Lemma detect_returns opts page_number image st :
  ∃ d, detect rt opts page_number image st = Returns d.
Proof.
  destruct (use_denoise opts || use_threshold opts) eqn:E.
  - destruct (detect_two_pass rt opts page_number image st E) as (d & Hd & _). eauto.
  - destruct (detect_single_pass rt opts page_number image st E) as (d & Hd & _). eauto.
Qed.

Lemma process_page_spec opts page_number pg st d :
  detect rt opts page_number (page_to_pil pg (decimal 2 1)) st = Returns d →
  ∃ st', process_page rt opts page_number pg st = Returns st' ∧
    let n := num_detections (found_results d) in
    let lp := snd (build_annotations rt (found_results d) (st_annotation_counter st)
                     (st_detections_per_class st)) in
    st_total_detections st' = (st_total_detections st + n)%nat
    ∧ st_detections_per_class st' = loop_per_class lp
    ∧ st_page_stats st'
      = st_page_stats st ++ [mkPageStat (S page_number) n (page_classes lp)]
    ∧ st_annotations_output st'
      = <[page_key (S page_number) :=
            mkPageEntry (page_annotations lp)
              (py_int (fst (page_rect pg)), py_int (snd (page_rect pg)))]>
          (st_annotations_output st)
    ∧ st_annotation_counter st' = annotation_counter lp
    ∧ length (st_output_doc st') = S (length (st_output_doc st))
    ∧ st_calls st' = found_calls d
    ∧ st_preprocessing_applied st' = found_applied d.
Proof.
  intros Hd. unfold process_page. destruct (page_rect pg) as [w h]. rewrite Hd.
  cbn [attempt_bind].
  pose proof (build_annotations_spec rt (found_results d) (st_annotation_counter st)
                (st_detections_per_class st)) as Hb.
  cbn zeta in Hb. destruct Hb as (Hn & _).
  destruct (build_annotations rt (found_results d) _ _) as [n lp].
  cbn [fst snd] in *. subst n.
  destruct (draw_detections rt _ _ _) as [annotated count].
  eexists. split; [reflexivity|].
  cbn [st_total_detections st_detections_per_class st_page_stats st_annotations_output
       st_annotation_counter st_output_doc st_calls st_preprocessing_applied].
  rewrite Nat.add_1_r. unfold pil_to_pdf_page. rewrite length_app. cbn [length].
  repeat split; try reflexivity. lia.
Qed.

Lemma process_page_consistent opts k pg st :
  consistent k st →
  ∃ st', process_page rt opts k pg st = Returns st' ∧ consistent (S k) st'.
Proof.
  intros (Htot & Hctr & Hcls & Hdom & Hids & Hpages & Hper & Hlen & Hdoc).
  destruct (detect_returns opts k (page_to_pil pg (decimal 2 1)) st) as (d & Hd).
  destruct (process_page_spec opts k pg st d Hd)
    as (st' & Hst' & E1 & E2 & E3 & E4 & E5 & E6 & _).
  exists st'. split; [exact Hst'|].
  pose proof (build_annotations_spec rt (found_results d) (st_annotation_counter st)
                (st_detections_per_class st)) as Hb.
  cbn zeta in Hb. destruct Hb as (_ & Bc & Bids & Blen & Bp & Bd).
  set (n := num_detections (found_results d)) in *.
  set (lp := snd (build_annotations rt (found_results d) _ _)) in *.
  unfold consistent. rewrite E1, E2, E3, E4, E5.
  split; [rewrite fmap_app, sum_list_append; cbn; lia|].
  split; [lia|]. split; [lia|].
  split.
  { rewrite dom_insert_L, Hdom, seq_S, fmap_app, list_to_set_app_L.
    cbn [fmap list_fmap list_to_set foldr]. rewrite union_empty_r_L.
    apply union_comm_L. }
  split.
  { unfold annotation_ids in *. rewrite entries_in_page_order_insert.
    rewrite fmap_app, join_app, fmap_app, Hids. cbn [fmap list_fmap mjoin list_join annotations].
    rewrite app_nil_r, Bids, Hctr.
    change (S (st_total_detections st)) with (1 + st_total_detections st)%nat.
    rewrite <- fmap_app, seq_app_next. reflexivity. }
  split; [rewrite fmap_app, Hpages, seq_S; reflexivity|].
  split; [apply Forall_app; split; [exact Hper | constructor; [exact Bp | constructor]]|].
  split; [|lia].
  rewrite entries_in_page_order_insert, !fmap_app, Hlen. cbn. now rewrite Blen.
Qed.

Lemma process_pages_consistent opts pages : ∀ k st,
  consistent k st →
  ∃ st', process_pages rt opts k pages st = Returns st'
         ∧ consistent (k + length pages) st'.
Proof.
  induction pages as [|pg pages IH]; intros k st Hst.
  - exists st. rewrite Nat.add_0_r. split; [reflexivity | exact Hst].
  - destruct (process_page_consistent opts k pg st Hst) as (st1 & H1 & Hc1).
    destruct (IH (S k) st1 Hc1) as (st' & H' & Hc').
    exists st'. cbn [process_pages length]. rewrite H1. cbn [attempt_bind].
    split; [exact H'|]. now rewrite Nat.add_succ_r.
Qed.

Lemma initial_state_consistent opts : consistent 0 (initial_state opts).
Proof.
  unfold consistent, initial_state. cbn.
  rewrite dict_sum_empty, dom_empty_L. repeat split; constructor.
Qed.

End PageLoop.

(** ** Predictor invocations *)

Section Invocations.

Context (rt : Runtime).

Lemma process_pages_calls_single opts pages : ∀ k st,
  use_denoise opts || use_threshold opts = false →
  ∃ st', process_pages rt opts k pages st = Returns st'
         ∧ st_calls st'
           = st_calls st
             ++ ((λ pg, image_to_detect rt opts (page_to_pil pg (decimal 2 1))) <$> pages).
Proof.
  induction pages as [|pg pages IH]; intros k st Hmode.
  - exists st. cbn. now rewrite app_nil_r.
  - destruct (detect_single_pass rt opts k (page_to_pil pg (decimal 2 1)) st Hmode)
      as (d & Hd & Hcalls & _).
    destruct (process_page_spec rt opts k pg st d Hd)
      as (st1 & H1 & _ & _ & _ & _ & _ & _ & Hc & _).
    destruct (IH (S k) st1 Hmode) as (st' & H' & Hc').
    exists st'. cbn [process_pages]. rewrite H1. cbn [attempt_bind].
    split; [exact H'|]. rewrite Hc', Hc, Hcalls, <- app_assoc. reflexivity.
Qed.

Lemma process_pages_calls_two_pass opts pages : ∀ k st,
  use_denoise opts || use_threshold opts = true →
  ∃ st', process_pages rt opts k pages st = Returns st'
         ∧ length (st_calls st') = (length (st_calls st) + 2 * length pages)%nat.
Proof.
  induction pages as [|pg pages IH]; intros k st Hmode.
  - exists st. cbn. split; [reflexivity | lia].
  - destruct (detect_two_pass rt opts k (page_to_pil pg (decimal 2 1)) st Hmode)
      as (d & Hd & Hcalls & _).
    destruct (process_page_spec rt opts k pg st d Hd)
      as (st1 & H1 & _ & _ & _ & _ & _ & _ & Hc & _).
    destruct (IH (S k) st1 Hmode) as (st' & H' & Hc').
    exists st'. cbn [process_pages]. rewrite H1. cbn [attempt_bind].
    split; [exact H'|]. rewrite Hc', Hc, Hcalls, length_app. cbn [length]. lia.
Qed.

End Invocations.

(** C9. [process_pdf] always returns, and the mode it reports is two-pass
    exactly when denoise or threshold is requested. In single-pass mode
    (neither requested, CLAHE or not) the predictor is invoked exactly once per
    page, in page order: on the CLAHE-processed image when CLAHE is requested,
    on the rasterised page otherwise. In two-pass mode it is invoked twice per
    page. *)
Theorem single_pass_invokes_predictor_once (rt : Runtime) (source_doc : list Page)
    (pdf_filename : string) (opts : Options) :
  ∃ report eff,
    process_pdf rt source_doc pdf_filename opts = Returns (report, eff)
    ∧ two_pass_mode (preprocessing report) = use_denoise opts || use_threshold opts
    ∧ (two_pass_mode (preprocessing report) = false ↔
         use_denoise opts = false ∧ use_threshold opts = false)
    ∧ (two_pass_mode (preprocessing report) = false →
         predictor_calls eff
         = (λ pg, image_to_detect rt opts (page_to_pil pg (decimal 2 1))) <$> source_doc
         ∧ length (predictor_calls eff) = length source_doc)
    ∧ (two_pass_mode (preprocessing report) = true →
         length (predictor_calls eff) = (2 * length source_doc)%nat).
Proof.
  unfold process_pdf.
  destruct (use_denoise opts || use_threshold opts) eqn:Hmode.
  - destruct (process_pages_calls_two_pass rt opts source_doc 0 (initial_state opts) Hmode)
      as (st' & -> & Hc).
    cbn [attempt_bind]. do 2 eexists. split; [reflexivity|].
    cbn [preprocessing two_pass_mode predictor_calls].
    split; [reflexivity|]. split.
    { split; [discriminate|]. intros [Hd Ht]. rewrite Hd, Ht in Hmode. discriminate. }
    split; [discriminate|]. intros _. rewrite Hc. reflexivity.
  - destruct (process_pages_calls_single rt opts source_doc 0 (initial_state opts) Hmode)
      as (st' & -> & Hc).
    cbn [attempt_bind]. do 2 eexists. split; [reflexivity|].
    cbn [preprocessing two_pass_mode predictor_calls].
    split; [reflexivity|]. split.
    { split; [|reflexivity]. intros _. now apply orb_false_elim in Hmode. }
    split; [|discriminate]. intros _. rewrite Hc. cbn [initial_state st_calls app].
    split; [reflexivity | apply length_fmap].
Qed.

(** ** Consistency of the report *)

(** C10. [process_pdf] always returns a report, and that report is
    consistent: [total_detections] is the sum of the [detections] fields of
    [page_stats], the number of annotation records over all pages, and the sum
    of the values of [detections_per_class]; [annotations] has the one key
    [pdf_filename], under it exactly the keys [page_1] to [page_N] for the [N]
    pages of the document; each page's count is the number of its annotation
    records; and the annotation identifiers, read in page order and then in
    detection order, are [annotation_1], ..., [annotation_total] without
    gaps. *)
Theorem report_is_consistent (rt : Runtime) (source_doc : list Page)
    (pdf_filename : string) (opts : Options) :
  ∃ report eff ao,
    process_pdf rt source_doc pdf_filename opts = Returns (report, eff)
    ∧ report_annotations report = {[ pdf_filename := ao ]}
    ∧ total_pages report = length source_doc
    ∧ total_detections report = sum_list (detections <$> page_stats report)
    ∧ total_detections report
      = length (mjoin (annotations <$> entries_in_page_order ao (total_pages report)))
    ∧ total_detections report = dict_sum (detections_per_class report)
    ∧ dom ao = list_to_set (page_key <$> seq 1 (total_pages report))
    ∧ annotation_ids ao (total_pages report)
      = annotation_key <$> seq 1 (total_detections report)
    ∧ page <$> page_stats report = seq 1 (total_pages report)
    ∧ detections <$> page_stats report
      = (λ e, length (annotations e)) <$> entries_in_page_order ao (total_pages report)
    ∧ Forall (λ ps, dict_sum (classes ps) = detections ps) (page_stats report)
    ∧ length (output_pdf eff) = length source_doc.
Proof.
  unfold process_pdf.
  destruct (process_pages_consistent rt opts source_doc 0 (initial_state opts)
              (initial_state_consistent opts))
    as (st' & -> & Htot & Hctr & Hcls & Hdom & Hids & Hpages & Hper & Hlen & Hdoc).
  cbn [attempt_bind Nat.add] in *.
  do 3 eexists. split; [reflexivity|].
  cbn [report_annotations total_pages total_detections detections_per_class page_stats
       output_pdf].
  split; [reflexivity|]. split; [reflexivity|]. split; [exact Htot|].
  split.
  { unfold annotation_ids in Hids. apply (f_equal length) in Hids.
    rewrite !length_fmap, length_seq in Hids. now symmetry. }
  split; [now symmetry|]. split; [exact Hdom|]. split; [exact Hids|].
  split; [exact Hpages|]. split; [exact Hlen|]. split; [exact Hper | exact Hdoc].
Qed.

(** ** A page without detections *)

Section NoDetections.

Context (rt : Runtime).

Hypothesis predictor_finds_nothing : ∀ image conf iou max_det,
  num_detections (results_of_prediction (model_predict rt image conf iou max_det)) = 0%nat.

Lemma detect_nothing opts page_number image st :
  ∃ d, detect rt opts page_number image st = Returns d
       ∧ num_detections (found_results d) = 0%nat.
Proof.
  destruct (use_denoise opts || use_threshold opts) eqn:E.
  - destruct (detect_two_pass rt opts page_number image st E) as (d & Hd & _ & _ & Hset).
    exists d. split; [exact Hd|]. cbn zeta in Hset.
    rewrite num_detections_length, Hset, corner_pass_detections.
    rewrite length_app, length_fmap, <- num_detections_length, predictor_finds_nothing.
    cbn [Nat.add].
    match goal with |- length (filter _ (detection_set ?r)) = _ =>
      assert (Hr : detection_set r = [])
        by (apply length_zero_iff_nil; rewrite <- num_detections_length;
            apply predictor_finds_nothing);
      now rewrite Hr
    end.
  - destruct (detect_single_pass rt opts page_number image st E) as (d & Hd & _ & Hr).
    exists d. split; [exact Hd|]. rewrite Hr. apply predictor_finds_nothing.
Qed.

Lemma process_single_page_nothing pg pdf_filename opts :
  ∃ report eff,
    process_pdf rt [pg] pdf_filename opts = Returns (report, eff)
    ∧ total_pages report = 1%nat
    ∧ total_detections report = 0%nat
    ∧ detections_per_class report = ∅
    ∧ page_stats report = [mkPageStat 1 0 ∅]
    ∧ report_annotations report
      = {[ pdf_filename :=
             {[ "page_1" :=
                  mkPageEntry [] (py_int (fst (page_rect pg)),
                                  py_int (snd (page_rect pg))) ]} ]}
    ∧ length (output_pdf eff) = 1%nat.
Proof.
  unfold process_pdf. cbn [process_pages].
  destruct (detect_nothing opts 0 (page_to_pil pg (decimal 2 1)) (initial_state opts))
    as (d & Hd & Hn).
  destruct (process_page_spec rt opts 0 pg (initial_state opts) d Hd)
    as (st' & -> & E1 & E2 & E3 & E4 & _ & E6 & _).
  cbn zeta in *. rewrite Hn in *.
  rewrite (build_annotations_nothing rt _ _ _ Hn) in *.
  cbn [attempt_bind snd page_classes page_annotations loop_per_class initial_state
       st_total_detections st_detections_per_class st_page_stats st_annotations_output
       st_output_doc length app Nat.add] in *.
  do 2 eexists. split; [reflexivity|].
  cbn [total_pages total_detections detections_per_class page_stats report_annotations
       output_pdf length].
  rewrite E1, E2, E3, E4, E6. rewrite insert_empty. repeat split.
Qed.

End NoDetections.

(** C8. When the predictor finds nothing on any image it is given, whatever
    the thresholds and the preprocessing flags, processing a one-page document
    returns a report with [total_detections = 0], [page_stats] the single entry
    [{page: 1, detections: 0, classes: {}}], an empty annotation list under
    [page_1], no per-class counts, and an output document of exactly one
    page. *)
Theorem single_page_without_detections (rt : Runtime) (pg : Page)
    (pdf_filename : string) (opts : Options) :
  (∀ image conf iou max_det,
     num_detections (results_of_prediction (model_predict rt image conf iou max_det))
     = 0%nat) →
  ∃ report eff,
    process_pdf rt [pg] pdf_filename opts = Returns (report, eff)
    ∧ total_pages report = 1%nat
    ∧ total_detections report = 0%nat
    ∧ detections_per_class report = ∅
    ∧ page_stats report = [mkPageStat 1 0 ∅]
    ∧ report_annotations report
      = {[ pdf_filename :=
             {[ "page_1" :=
                  mkPageEntry [] (py_int (fst (page_rect pg)),
                                  py_int (snd (page_rect pg))) ]} ]}
    ∧ length (output_pdf eff) = 1%nat.
Proof. intros H. now apply process_single_page_nothing. Qed.

(** ** The statements on the sample data *)


(** Two-pass detection on the sample page: two signatures from pass 1 and the
    QR code of the corner make three detections. *)
Lemma two_pass_on_sample_page :
  ∃ d, detect sample_runtime (sample_options false true false) 0
         (blank_image 1000 800) (initial_state (sample_options false true false))
       = Returns d
       ∧ num_detections (found_results d) = 3%nat
       ∧ length (found_calls d) = 2%nat.
Proof.
  destruct (two_pass_detection_spec sample_runtime (sample_options false true false) 0
              (blank_image 1000 800) (initial_state (sample_options false true false))
              eq_refl)
    as (d & Hd & Hcalls & _ & _ & Hscenario).
  exists d. split; [exact Hd|]. split.
  - refine (proj1 (proj2 (Hscenario _ _ (hd (mkDetection (0, 0, 0, 0) None 0 0)
                      (tensor_detections (T6 [qr1]))) eq_refl eq_refl eq_refl _))).
    match goal with |- filter _ ?l = _ =>
      replace l with (tensor_detections (T6 [stamp1; qr1])) by (vm_compute; reflexivity)
    end.
    unfold tensor_detections. rewrite !fmap_cons, fmap_nil.
    rewrite filter_cons_False, filter_cons_True, filter_nil; [reflexivity | reflexivity |].
    intros H. apply of_int_inj in H. discriminate H.
  - rewrite Hcalls. reflexivity.
Defined.

(** A blind predictor on the one-page sample document. *)
Lemma single_page_blind_predictor :
  ∃ report eff,
    process_pdf blind_runtime [sample_page] "scan.pdf" (sample_options true true false)
    = Returns (report, eff)
    ∧ total_detections report = 0%nat
    ∧ page_stats report = [mkPageStat 1 0 ∅]
    ∧ length (output_pdf eff) = 1%nat.
Proof.
  destruct (single_page_without_detections blind_runtime sample_page "scan.pdf"
              (sample_options true true false))
    as (report & eff & H & _ & Ht & _ & Hs & _ & Hl).
  - intros image conf iou max_det. reflexivity.
  - exists report, eff. auto.
Defined.

(** Two signatures merged with one QR detection of the same layout. *)
Lemma merge_signatures_with_qr :
  ∃ m, _merge_detections two_signatures one_untracked = Returns m
       ∧ num_detections m = 3%nat.
Proof.
  destruct (merge_detections_spec two_signatures one_untracked)
    as (_ & _ & Hsame & _).
  destruct (Hsame eq_refl eq_refl eq_refl) as (m & Hm & _ & Hn).
  exists m. split; [exact Hm | exact Hn].
Defined.


(** Filtering the corner detections by all three classes keeps them all. *)
Lemma filter_corner_by_all_classes :
  detection_set (_filter_detections_by_class corner_raw [0; 1; 2]%Z)
  = detection_set corner_raw.
Proof.
  destruct (filter_detections_by_class_spec corner_raw [0; 1; 2]%Z)
    as (_ & _ & _ & _ & _ & Hall).
  apply Hall. intros d Hd.
  change (detection_set corner_raw) with (tensor_detections (T6 [stamp1; qr1])) in Hd.
  unfold tensor_detections in Hd. rewrite !fmap_cons, fmap_nil in Hd.
  apply elem_of_cons in Hd as [-> | Hd].
  - exists 1%Z. split; [|reflexivity]. apply list_elem_of_further, list_elem_of_here.
  - apply list_elem_of_singleton in Hd as ->.
    exists 2%Z. split; [|reflexivity].
    apply list_elem_of_further, list_elem_of_further, list_elem_of_here.
Defined.


(** CLAHE only, on a two-page document: two invocations of the predictor. *)
Lemma clahe_only_two_pages :
  ∃ report eff,
    process_pdf sample_runtime [sample_page; sample_page] "scan.pdf"
      (sample_options true false false) = Returns (report, eff)
    ∧ length (predictor_calls eff) = 2%nat.
Proof.
  destruct (single_pass_invokes_predictor_once sample_runtime [sample_page; sample_page]
              "scan.pdf" (sample_options true false false))
    as (report & eff & H & Hmode & _ & Hsingle & _).
  exists report, eff. split; [exact H|]. exact (proj2 (Hsingle Hmode)).
Defined.

(** ** Evaluated examples *)

Example py_int_truncates : py_int (decimal (-15) 10) = (-1)%Z ∧ py_int (decimal 15 10) = 1%Z.
Proof. split; vm_compute; reflexivity. Qed.

Example py_round_ties_to_even :
  py_round (decimal 125 1000) 2 = decimal 12 100
  ∧ py_round (decimal 375 1000) 2 = decimal 38 100
  ∧ py_round (decimal 1234 1000) 2 = decimal 123 100.
Proof. repeat split; apply Qc_is_canon; vm_compute; reflexivity. Qed.

Example document_space_of_sig1 :
  fst (to_document_space (of_int 100, of_int 200, of_int 301, of_int 260))
  = mkBBox (of_int 50) (of_int 100) (decimal 1005 10) (of_int 30).
Proof.
  unfold to_document_space. cbn [fst].
  f_equal; apply Qc_is_canon; vm_compute; reflexivity.
Qed.

Example annotations_of_sample_page :
  ∃ report eff,
    process_pdf sample_runtime [sample_page] "scan.pdf" (sample_options false true false)
    = Returns (report, eff)
    ∧ total_detections report = 3%nat
    ∧ detections_per_class report = {[ "signature" := 2%nat; "qr_code" := 1%nat ]}
    ∧ annotation_ids (default ∅ (report_annotations report !! "scan.pdf")) 1
      = ["annotation_1"; "annotation_2"; "annotation_3"]
    ∧ length (predictor_calls eff) = 2%nat.
Proof.
  do 2 eexists. split; [vm_compute; reflexivity|].
  repeat split; vm_compute; reflexivity.
Qed.

(** * Further properties of the tensor helpers *)

Lemma of_int_add (a b : Z) : of_int (a + b) = of_int a + of_int b.
Proof.
  apply Qc_is_canon. unfold of_int. cbn [this Q2Qc Qcplus].
  rewrite !Qred_correct. rewrite inject_Z_plus. reflexivity.
Qed.

Lemma of_int_zero : of_int 0 = 0.
Proof. apply Qc_is_canon. reflexivity. Qed.




Lemma mask_rows_shift t allowed dx dy :
  mask_rows (shift_columns t dx dy) allowed = shift_columns (mask_rows t allowed) dx dy.
Proof.
  destruct t as [rows|rows]; unfold mask_rows, shift_columns; f_equal;
    now rewrite filter_fmap_comm.
Qed.

Lemma mask_sum_shift t allowed dx dy :
  mask_sum (shift_columns t dx dy) allowed = mask_sum t allowed.
Proof.
  unfold mask_sum. f_equal. f_equal.
  now destruct (shift_columns_columns t dx dy) as (_ & _ & -> & _).
Qed.

Lemma mask_sum_len t allowed : mask_sum t allowed = tensor_len (mask_rows t allowed).
Proof.
  rewrite mask_sum_detections, <- tensor_detections_mask. apply tensor_len_detections.
Qed.

(** X2. Filtering by class and translating commute, as whole results: the order
    in which the corner pass applies them does not matter. *)
Theorem filter_commutes_with_adjust (r : Results) (allowed : list Z) (dx dy : Z) :
  _adjust_detection_coordinates (_filter_detections_by_class r allowed) dx dy
  = _filter_detections_by_class (_adjust_detection_coordinates r dx dy) allowed.
Proof.
  destruct (no_boxes r) eqn:E.
  - rewrite (adjust_empty r) by done.
    unfold _filter_detections_by_class. rewrite E. now apply adjust_empty.
  - destruct (no_boxes_false r E) as (bx & Hb & Hn).
    rewrite (adjust_nonempty r dx dy bx Hb Hn).
    unfold _filter_detections_by_class at 2.
    assert (Hne : no_boxes (set_boxes r (Some (mkBoxes (shift_columns (data bx) dx dy)
                                                 (orig_shape r)))) = false).
    { unfold no_boxes, boxes_len. cbn. rewrite tensor_len_shift. now apply Nat.eqb_neq. }
    rewrite Hne. cbn [boxes set_boxes data orig_shape]. rewrite mask_sum_shift.
    unfold _filter_detections_by_class. rewrite E, Hb.
    destruct (Nat.eqb_spec (mask_sum (data bx) allowed) 0) as [Hz|Hz].
    + now rewrite adjust_empty.
    + erewrite adjust_nonempty; [| reflexivity |].
      * unfold set_boxes. cbn. now rewrite mask_rows_shift.
      * unfold boxes_len. cbn. now rewrite <- mask_sum_len.
Qed.

(** X3. Filtering twice keeps the detections whose class is in both lists, so the
    two filters commute and filtering again by the same list changes nothing;
    a filter never adds a detection. *)
Theorem filter_detections_by_class_compose (r : Results) (a b : list Z) :
  detection_set (_filter_detections_by_class (_filter_detections_by_class r a) b)
  = filter (λ d, isin a (d_cls d) = true ∧ isin b (d_cls d) = true) (detection_set r)
  ∧ detection_set (_filter_detections_by_class (_filter_detections_by_class r a) b)
    = detection_set (_filter_detections_by_class (_filter_detections_by_class r b) a)
  ∧ _filter_detections_by_class (_filter_detections_by_class r a) a
    = _filter_detections_by_class r a
  ∧ (num_detections (_filter_detections_by_class r a) ≤ num_detections r)%nat.
Proof.
  assert (H1 : ∀ x y,
    detection_set (_filter_detections_by_class (_filter_detections_by_class r x) y)
    = filter (λ d, isin x (d_cls d) = true ∧ isin y (d_cls d) = true) (detection_set r)).
  { intros x y. rewrite !filter_detection_set, list_filter_filter.
    apply list_filter_iff. intros. tauto. }
  split; [apply H1|]. split.
  { rewrite !H1. apply list_filter_iff. intros. tauto. }
  split.
  - unfold _filter_detections_by_class at 1.
    destruct (no_boxes (_filter_detections_by_class r a)) eqn:E; [reflexivity|].
    destruct (no_boxes_false _ E) as (bx & Hb & Hn). rewrite Hb.
    assert (Hall : mask_rows (data bx) a = data bx).
    { apply mask_rows_all. intros d Hd.
      assert (Hin : d ∈ detection_set (_filter_detections_by_class r a))
        by (unfold detection_set; now rewrite Hb).
      rewrite filter_detection_set in Hin. now apply list_elem_of_filter in Hin as [? _]. }
    rewrite mask_sum_len, Hall. apply Nat.eqb_neq in Hn. unfold boxes_len in Hn.
    rewrite Hn.
    assert (Hshape : boxes_orig_shape bx = orig_shape (_filter_detections_by_class r a)
                     ∧ orig_shape (_filter_detections_by_class r a) = orig_shape r
                       ∨ no_boxes r = true).
    { unfold _filter_detections_by_class in Hb |- *.
      destruct (no_boxes r) eqn:Er; [now right|]. left.
      destruct (no_boxes_false r Er) as (b0 & Hb0 & _). rewrite Hb0 in Hb |- *.
      destruct (Nat.eqb (mask_sum (data b0) a) 0); [discriminate|].
      cbn in Hb |- *. injection Hb as <-. auto. }
    destruct Hshape as [[Hs1 Hs2]|Er].
    + destruct (_filter_detections_by_class r a) as [bxs sh] eqn:Ef.
      cbn in *. subst bxs. unfold set_boxes. cbn. f_equal. f_equal.
      destruct bx; cbn in *. now subst.
    + unfold _filter_detections_by_class in E. rewrite Er in E. congruence.
  - rewrite !num_detections_length, filter_detection_set. apply length_filter.
Qed.

(** X4. [_merge_detections] is associative, failures included: merging three
    results gives the same outcome (the same result, or a raise) whichever pair
    is merged first. The merged result carries the [orig_shape] of the first
    non-empty operand, so the shape of the second when the first is empty. *)
Theorem merge_detections_assoc (a b c : Results) :
  attempt_bind (_merge_detections a b) (λ ab, _merge_detections ab c)
  = attempt_bind (_merge_detections b c) (λ bc, _merge_detections a bc)
  ∧ ∀ m, _merge_detections a b = Returns m →
         orig_shape m = (if no_boxes a then orig_shape b else orig_shape a)
         ∧ detection_set m = detection_set a ++ detection_set b.
Proof.
  split.
  - destruct a as [[[[[|ra la]|[|ra la]] sa]|] ha], b as [[[[[|rb lb]|[|rb lb]] sb]|] hb],
      c as [[[[[|rc lc]|[|rc lc]] sc]|] hc];
      cbn; rewrite <- ?app_assoc; reflexivity.
  - intros m Hm. split.
    + destruct a as [[[[[|ra la]|[|ra la]] sa]|] ha], b as [[[[[|rb lb]|[|rb lb]] sb]|] hb];
        cbn in Hm |- *; try discriminate Hm; injection Hm as <-; reflexivity.
    + destruct a as [[[[[|ra la]|[|ra la]] sa]|] ha], b as [[[[[|rb lb]|[|rb lb]] sb]|] hb];
        cbn in Hm |- *; try discriminate Hm; injection Hm as <-; cbn;
        rewrite ?app_nil_r, ?fmap_app; reflexivity.
Qed.

(** * Drawing *)

Lemma py_min_le_l a b : py_min a b <= a.
Proof.
  unfold py_min. destruct (Qclt_le_dec b a); [now apply Qclt_le_weak | apply Qcle_refl].
Qed.








Lemma py_min_monotone u v b : u <= v → py_min u b <= py_min v b.
Proof.
  intros H. unfold py_min.
  destruct (Qclt_le_dec b u) as [Hu|Hu], (Qclt_le_dec b v) as [Hv|Hv].
  - apply Qcle_refl.
  - exfalso. apply (Qclt_not_le _ _ Hu). now apply Qcle_trans with v.
  - exact Hu.
  - exact H.
Qed.

Lemma py_max_monotone a m n : m <= n → py_max a m <= py_max a n.
Proof.
  intros H. unfold py_max.
  destruct (Qclt_le_dec a m) as [Hm|Hm], (Qclt_le_dec a n) as [Hn|Hn].
  - exact H.
  - exfalso. apply (Qclt_not_le _ _ Hm). now apply Qcle_trans with n.
  - now apply Qclt_le_weak.
  - apply Qcle_refl.
Qed.

Lemma clamp_monotone u v bound : u <= v → clamp u bound <= clamp v bound.
Proof. intros H. unfold clamp. now apply py_max_monotone, py_min_monotone. Qed.

Lemma tensor_view_detections t :
  tensor_view t
  = (λ d, let '(x1, y1, x2, y2) := d_box d in (x1, y1, x2, y2, d_conf d, d_cls d))
      <$> tensor_detections t.
Proof.
  destruct t; unfold tensor_view, tensor_detections; rewrite <- list_fmap_compose;
    apply list_fmap_ext; intros ? [] ?; reflexivity.
Qed.




(** * The corner pass *)

Lemma of_int_le (a b : Z) : (a ≤ b)%Z → of_int a <= of_int b.
Proof.
  intros H. unfold Qcle, of_int. cbn [this Q2Qc]. rewrite !Qred_correct.
  unfold Qle, inject_Z. cbn [Qnum Qden]. lia.
Qed.

Lemma corner_size_default_fraction : 0 <= corner_size_default ∧ corner_size_default <= 1.
Proof. split; unfold Qcle; vm_compute; discriminate. Qed.

(** The default corner of an image of non-negative size. *)
Lemma extract_default_corner (image : Image) :
  (0 ≤ image_width image)%Z → (0 ≤ image_height image)%Z →
  ∃ cw ch,
    (0 ≤ cw ≤ image_width image)%Z ∧ (0 ≤ ch ≤ image_height image)%Z
    ∧ _extract_bottom_right_corner image None
      = (crop image (image_width image - cw, image_height image - ch,
                     image_width image, image_height image)%Z,
         (image_width image - cw, image_height image - ch)%Z).
Proof.
  intros HW HH. unfold _extract_bottom_right_corner, image_width, image_height in *.
  destruct (size image) as [W H]. cbn [fst snd default from_option] in *.
  destruct corner_size_default_fraction as [H0 H1].
  rewrite !py_int_mult_floor by (try apply of_int_nonneg; assumption).
  exists (Qfloor (this (of_int W) * this corner_size_default)%Q),
         (Qfloor (this (of_int H) * this corner_size_default)%Q).
  pose proof (floor_scaled_nonneg W _ HW H0). pose proof (floor_scaled_nonneg H _ HH H0).
  pose proof (floor_scaled_le W _ HW H1). pose proof (floor_scaled_le H _ HH H1).
  repeat split; assumption.
Qed.

Lemma translate_into_region (x : Qc) (offset extent : Z) :
  0 <= x → x <= of_int extent →
  of_int offset <= x + of_int offset ∧ x + of_int offset <= of_int (offset + extent).
Proof.
  intros H0 H1. split.
  - rewrite <- (Qcplus_0_l (of_int offset)) at 1. now apply Qcplus_le_mono_r.
  - rewrite of_int_add, (Qcplus_comm (of_int offset)). now apply Qcplus_le_mono_r.
Qed.

(** X6. The corner pass returns only class-2 detections, never more than the
    predictor found on the crop, and places them in the bottom-right region of
    the full image: a QR box that lies within the crop comes back within the
    rectangle from the offsets to the image's bottom-right corner, hence within
    the image. *)
Theorem corner_pass_stays_in_corner (rt : Runtime) (image : Image) (conf iou : Qc)
    (max_det : Z) (calls : list Image) :
  (0 ≤ image_width image)%Z → (0 ≤ image_height image)%Z →
  let out := _extract_bottom_right_corner image None in
  let corner := fst out in
  let x_offset := fst (snd out) in
  let y_offset := snd (snd out) in
  let raw := results_of_prediction (model_predict rt corner conf iou max_det) in
  let result := fst (_detect_on_bottom_right_corner rt image conf iou max_det None calls) in
  (0 ≤ x_offset ≤ image_width image)%Z ∧ (0 ≤ y_offset ≤ image_height image)%Z
  ∧ Forall (λ d, d_cls d = of_int 2) (detection_set result)
  ∧ (num_detections result ≤ num_detections raw)%nat
  ∧ Forall (λ d, ∃ d0, d0 ∈ detection_set raw ∧ d_cls d0 = of_int 2
                       ∧ d = translate_detection x_offset y_offset d0
                       ∧ (box_in_region (d_box d0) 0 0 (image_width corner)
                            (image_height corner) →
                          box_in_region (d_box d) x_offset y_offset
                            (image_width image) (image_height image)
                          ∧ box_in_region (d_box d) 0 0
                              (image_width image) (image_height image)))
      (detection_set result).
Proof.
  intros HW HH out corner x_offset y_offset raw result.
  pose proof (detect_on_bottom_right_corner_eq rt image conf iou max_det None calls) as Hc.
  cbn zeta in Hc.
  change (_extract_bottom_right_corner image (Some (default corner_size_default None)))
    with out in Hc.
  fold corner raw in Hc. subst result.
  destruct (_detect_on_bottom_right_corner rt image conf iou max_det None calls)
    as [result calls'].
  destruct Hc as (_ & Hres & _). cbn [fst].
  fold x_offset y_offset in Hres.
  assert (Hset : detection_set result
                 = translate_detection x_offset y_offset
                     <$> filter (λ d, d_cls d = of_int 2) (detection_set raw)).
  { rewrite Hres. apply corner_pass_detections. }
  destruct (extract_default_corner image HW HH) as (cw & ch & Hcw & Hch & Hout).
  assert (Hx : x_offset = (image_width image - cw)%Z) by (subst x_offset out; now rewrite Hout).
  assert (Hy : y_offset = (image_height image - ch)%Z) by (subst y_offset out; now rewrite Hout).
  assert (Hcorner : image_width corner = cw ∧ image_height corner = ch).
  { subst corner out. rewrite Hout. unfold image_width, image_height. cbn. lia. }
  destruct Hcorner as [Hcw' Hch'].
  split; [lia|]. split; [lia|]. split.
  { rewrite Hset. apply Forall_fmap, Forall_forall. intros d Hd.
    apply list_elem_of_filter in Hd as [Hd _]. unfold compose, translate_detection.
    destruct (d_box d) as [[[? ?] ?] ?]. exact Hd. }
  split.
  { rewrite !num_detections_length, Hset, length_fmap. apply length_filter. }
  rewrite Hset. apply Forall_fmap, Forall_forall. intros d0 Hd0.
  apply list_elem_of_filter in Hd0 as [Hcls Hin]. exists d0.
  unfold compose.
  split; [exact Hin|]. split; [exact Hcls|]. split; [reflexivity|].
  rewrite Hcw', Hch'. unfold translate_detection.
  destruct (d_box d0) as [[[x1 y1] x2] y2]. unfold box_in_region. cbn [d_box].
  rewrite of_int_zero.
  intros ((? & ?) & (? & ?) & (? & ?) & (? & ?)).
  assert (HW' : image_width image = (x_offset + cw)%Z) by lia.
  assert (HH' : image_height image = (y_offset + ch)%Z) by lia.
  pose proof (translate_into_region x1 x_offset cw) as T1.
  pose proof (translate_into_region y1 y_offset ch) as T2.
  pose proof (translate_into_region x2 x_offset cw) as T3.
  pose proof (translate_into_region y2 y_offset ch) as T4.
  rewrite <- HW' in T1, T3. rewrite <- HH' in T2, T4.
  assert (Hxo : 0 <= of_int x_offset) by (apply of_int_nonneg; lia).
  assert (Hyo : 0 <= of_int y_offset) by (apply of_int_nonneg; lia).
  destruct T1 as [A1 B1]; [assumption..|]. destruct T2 as [A2 B2]; [assumption..|].
  destruct T3 as [A3 B3]; [assumption..|]. destruct T4 as [A4 B4]; [assumption..|].
  pose proof (Qcle_trans _ _ _ Hxo A1). pose proof (Qcle_trans _ _ _ Hyo A2).
  pose proof (Qcle_trans _ _ _ Hxo A3). pose proof (Qcle_trans _ _ _ Hyo A4).
  repeat split; assumption.
Qed.

Lemma corner_pass_on_sample_image :
  (0 ≤ image_width (blank_image 1000 800))%Z
  ∧ (0 ≤ image_height (blank_image 1000 800))%Z
  ∧ Forall (λ d, d_cls d = of_int 2)
      (detection_set
         (fst (_detect_on_bottom_right_corner sample_runtime (blank_image 1000 800)
                 (decimal 5 10) (decimal 45 100) 100 None []))).
Proof.
  assert (HW : (0 ≤ image_width (blank_image 1000 800))%Z) by (cbn; lia).
  assert (HH : (0 ≤ image_height (blank_image 1000 800))%Z) by (cbn; lia).
  split; [exact HW|]. split; [exact HH|].
  pose proof (corner_pass_stays_in_corner sample_runtime (blank_image 1000 800)
                (decimal 5 10) (decimal 45 100) 100 [] HW HH) as H.
  cbn zeta in H. destruct H as (_ & _ & Hcls & _). exact Hcls.
Defined.

(** * Reported boxes *)

Lemma round_half_even_nonneg (q : Q) : (0 <= q)%Q → (0 ≤ round_half_even q)%Z.
Proof.
  intros H. unfold round_half_even.
  assert (Hf : (0 ≤ Qfloor q)%Z) by (change 0%Z with (Qfloor 0); now apply Qfloor_resp_le).
  destruct (Qcompare _ _); [destruct (Z.even _)| |]; lia.
Qed.

Lemma py_round_nonneg (q : Qc) (n : nat) : 0 <= q → 0 <= py_round q n.
Proof.
  intros H. apply Qc_nonneg_this in H. unfold Qcle. change (this 0) with 0%Q.
  unfold py_round, decimal. cbn [this Q2Qc]. rewrite Qred_correct.
  assert (Hz : (0 ≤ round_half_even (q * inject_Z (Z.pos (pow10 n))))%Z).
  { apply round_half_even_nonneg. apply Qmult_le_0_compat; [exact H|].
    unfold Qle, inject_Z. cbn [Qnum Qden]. lia. }
  unfold Qle. cbn [Qnum Qden]. lia.
Qed.

Lemma py_round_zero (n : nat) : py_round 0 n = 0.
Proof.
  apply Qc_is_canon. unfold py_round, decimal. change (this 0) with 0%Q.
  cbn [this Q2Qc]. rewrite Qred_correct.
  assert (H : (0 * inject_Z (Z.pos (pow10 n)) == inject_Z 0)%Q) by ring.
  unfold round_half_even. rewrite (Qfloor_comp _ _ H), Qfloor_Z.
  destruct (Qcompare _ _) eqn:E.
  - apply Qeq_alt in E. exfalso. revert E. change (inject_Z 0) with 0%Q. lra.
  - reflexivity.
  - apply Qgt_alt in E. exfalso. revert E. change (inject_Z 0) with 0%Q. lra.
Qed.

Lemma Qc_half_nonneg (v : Qc) : 0 <= v → 0 <= v / scale_factor.
Proof.
  intros H. apply Qc_nonneg_this in H. unfold Qcle. change (this 0) with 0%Q.
  to_Q. lra.
Qed.

Lemma Qc_sub_nonneg (a b : Qc) : a <= b → 0 <= b - a.
Proof.
  intros H. unfold Qcle in *. change (this 0) with 0%Q. to_Q. lra.
Qed.

(** X7. For a box with [x1 <= x2] and [y1 <= y2] the reported width, height and
    area are never negative, and a box in the positive quadrant has a
    non-negative reported origin; a box of zero width is reported with width 0
    and area 0. *)
Theorem document_space_nonneg (x1 y1 x2 y2 : Qc) :
  x1 <= x2 → y1 <= y2 →
  let out := to_document_space (x1, y1, x2, y2) in
  0 <= bbox_width (fst out)
  ∧ 0 <= bbox_height (fst out)
  ∧ 0 <= snd out
  ∧ (0 <= x1 → 0 <= bbox_x (fst out))
  ∧ (0 <= y1 → 0 <= bbox_y (fst out))
  ∧ (x1 = x2 → bbox_width (fst out) = 0 ∧ snd out = 0).
Proof.
  intros Hx Hy out. subst out. unfold to_document_space.
  cbn [fst snd bbox_x bbox_y bbox_width bbox_height].
  pose proof (Qc_half_nonneg _ (Qc_sub_nonneg _ _ Hx)) as Hw.
  pose proof (Qc_half_nonneg _ (Qc_sub_nonneg _ _ Hy)) as Hh.
  split; [now apply py_round_nonneg|]. split; [now apply py_round_nonneg|].
  split; [apply py_round_nonneg; now apply Qc_mult_nonneg|].
  split; [intros H; now apply py_round_nonneg, Qc_half_nonneg|].
  split; [intros H; now apply py_round_nonneg, Qc_half_nonneg|].
  intros ->. replace ((x2 - x2) / scale_factor) with 0 by (unfold scale_factor; field; discriminate).
  replace (0 * ((y2 - y1) / scale_factor)) with 0 by ring.
  split; apply py_round_zero.
Qed.

Lemma document_space_of_signature_nonneg :
  of_int 100 <= of_int 300
  ∧ of_int 200 <= of_int 260
  ∧ 0 <= bbox_width
           (fst (to_document_space (of_int 100, of_int 200, of_int 300, of_int 260))).
Proof.
  assert (Hx : of_int 100 <= of_int 300) by (apply of_int_le; lia).
  assert (Hy : of_int 200 <= of_int 260) by (apply of_int_le; lia).
  split; [exact Hx|]. split; [exact Hy|].
  pose proof (document_space_nonneg (of_int 100) (of_int 200) (of_int 300) (of_int 260)
                Hx Hy) as H.
  cbn zeta in H. destruct H as (Hw & _). exact Hw.
Defined.

(** * Techniques reported by the preprocessing adapter *)




(** * What the report says about each page *)

Lemma count_of_snoc name labels l :
  count_of name (labels ++ [l])
  = (count_of name labels + (if decide (l = name) then 1 else 0))%nat.
Proof.
  unfold count_of. rewrite filter_app, length_app. f_equal.
  rewrite filter_cons, filter_nil. now destruct (decide (l = name)).
Qed.

Lemma counts_match_empty : counts_match ∅ [].
Proof. intros name. now rewrite lookup_empty. Qed.

Lemma counts_match_count_up d labels l :
  counts_match d labels → counts_match (count_up d l) (labels ++ [l]).
Proof.
  intros H name. rewrite count_of_snoc. unfold count_up.
  destruct (decide (l = name)) as [->|Hne].
  - rewrite lookup_insert_eq, (H name).
    destruct (Nat.eqb_spec (count_of name labels) 0) as [E|E]; cbn.
    + rewrite E. reflexivity.
    + destruct (Nat.eqb_spec (count_of name labels + 1) 0); [lia | reflexivity].
  - rewrite lookup_insert_ne by exact Hne. rewrite (H name), Nat.add_0_r. reflexivity.
Qed.

Section PageContents.

Context (rt : Runtime).

(** What [detect] finds does not depend on the page number or on the state
    of the loop. *)
Lemma detect_results_independent opts page_number image st d :
  detect rt opts page_number image st = Returns d →
  found_results d = image_results rt opts image.
Proof.
  intros Hd. unfold image_results.
  destruct (use_denoise opts || use_threshold opts) eqn:E.
  - destruct (detect_two_pass rt opts page_number image st E) as (d1 & H1 & _ & M1 & _).
    destruct (detect_two_pass rt opts 0 image (initial_state opts) E)
      as (d2 & H2 & _ & M2 & _).
    rewrite H2. rewrite Hd in H1. injection H1 as <-.
    cbn zeta in M1, M2. rewrite M1 in M2. now injection M2.
  - destruct (detect_single_pass rt opts page_number image st E) as (d1 & H1 & _ & R1).
    destruct (detect_single_pass rt opts 0 image (initial_state opts) E)
      as (d2 & H2 & _ & R2).
    rewrite H2. rewrite Hd in H1. injection H1 as <-. now rewrite R1, R2.
Qed.

Lemma annotate_loop_content rows : ∀ st,
  let st' := foldl (annotate_box rt) st (tensor_view rows) in
  snd <$> page_annotations st'
  = (snd <$> page_annotations st) ++ (annotation_of <$> tensor_detections rows)
  ∧ page_classes st'
    = foldl count_up (page_classes st)
        (detection_label (model_names rt) <$> tensor_detections rows)
  ∧ loop_per_class st'
    = foldl count_up (loop_per_class st)
        (detection_label (model_names rt) <$> tensor_detections rows).
Proof.
  rewrite tensor_view_detections.
  induction (tensor_detections rows) as [|d l IH]; intros st.
  - cbn. now rewrite app_nil_r.
  - rewrite !fmap_cons. cbn [foldl].
    specialize (IH (annotate_box rt st
      (let '(x1, y1, x2, y2) := d_box d in (x1, y1, x2, y2, d_conf d, d_cls d)))).
    cbn zeta in IH. destruct IH as (Ha & Hp & Hc). rewrite Ha, Hp, Hc.
    destruct d as [[[[x1 y1] x2] y2] tid conf cls]. unfold annotate_box.
    cbn [d_box d_conf d_cls to_document_space page_annotations page_classes loop_per_class].
    rewrite fmap_app, <- app_assoc. repeat split.
Qed.

Lemma build_annotations_content results counter per_class :
  let out := build_annotations rt results counter per_class in
  snd <$> page_annotations (snd out) = annotation_of <$> detection_set results
  ∧ page_classes (snd out)
    = foldl count_up ∅ (detection_label (model_names rt) <$> detection_set results)
  ∧ loop_per_class (snd out)
    = foldl count_up per_class
        (detection_label (model_names rt) <$> detection_set results).
Proof.
  unfold build_annotations, detection_set.
  destruct (boxes results) as [bx|]; cbn [snd from_option]; [|repeat split].
  pose proof (annotate_loop_content (data bx) (mkLoop counter [] ∅ per_class)) as H.
  cbn zeta in H. exact H.
Qed.

Lemma counts_match_foldl labels : ∀ d seen,
  counts_match d seen → counts_match (foldl count_up d labels) (seen ++ labels).
Proof.
  induction labels as [|l labels IH]; intros d seen H.
  - now rewrite app_nil_r.
  - cbn [foldl]. replace (seen ++ l :: labels) with ((seen ++ [l]) ++ labels)
      by now rewrite <- app_assoc.
    apply IH. now apply counts_match_count_up.
Qed.

End PageContents.

Section PageTrace.

Context (rt : Runtime).

(** One iteration in full: every field of the next state. *)
Lemma process_page_full opts page_number pg st d :
  detect rt opts page_number (page_to_pil pg (decimal 2 1)) st = Returns d →
  ∃ st', process_page rt opts page_number pg st = Returns st' ∧
    let results := page_results rt opts pg in
    let lp := snd (build_annotations rt results (st_annotation_counter st)
                     (st_detections_per_class st)) in
    found_results d = results
    ∧ st_total_detections st' = (st_total_detections st + num_detections results)%nat
    ∧ st_detections_per_class st' = loop_per_class lp
    ∧ st_page_stats st'
      = st_page_stats st
        ++ [mkPageStat (S page_number) (num_detections results) (page_classes lp)]
    ∧ st_annotations_output st'
      = <[page_key (S page_number) :=
            mkPageEntry (page_annotations lp)
              (py_int (fst (page_rect pg)), py_int (snd (page_rect pg)))]>
          (st_annotations_output st)
    ∧ st_output_doc st' = st_output_doc st ++ [annotated_page rt opts pg]
    ∧ st_preprocessing_applied st' = found_applied d
    ∧ st_preprocessing_viz_doc st' = found_viz_doc d.
Proof.
  intros Hd. pose proof (detect_results_independent rt _ _ _ _ _ Hd) as Hres.
  fold (page_results rt opts pg) in Hres.
  unfold process_page. destruct (page_rect pg) as [w h]. rewrite Hd.
  cbn [attempt_bind]. rewrite Hres.
  pose proof (build_annotations_spec rt (page_results rt opts pg)
                (st_annotation_counter st) (st_detections_per_class st)) as Hb.
  cbn zeta in Hb. destruct Hb as (Hn & _).
  destruct (build_annotations rt (page_results rt opts pg) _ _) as [n lp].
  cbn [fst snd] in *. subst n. unfold annotated_page.
  destruct (draw_detections rt _ _ _) as [annotated count].
  eexists. split; [reflexivity|].
  cbn [st_total_detections st_detections_per_class st_page_stats st_annotations_output
       st_annotation_counter st_output_doc st_calls st_preprocessing_applied
       st_preprocessing_viz_doc fst].
  rewrite Nat.add_1_r. repeat split.
Qed.

Lemma process_page_traced opts prev pg st :
  traced rt opts prev st →
  ∃ st', process_page rt opts (length prev) pg st = Returns st'
         ∧ traced rt opts (prev ++ [pg]) st'.
Proof.
  intros (Hout & Hann & Hstats & Hcls & Htot).
  destruct (detect_returns rt opts (length prev) (page_to_pil pg (decimal 2 1)) st)
    as (d & Hd).
  destruct (process_page_full opts (length prev) pg st d Hd)
    as (st' & Hst' & _ & E1 & E2 & E3 & E4 & E5 & _).
  cbn zeta in *.
  pose proof (build_annotations_content rt (page_results rt opts pg)
                (st_annotation_counter st) (st_detections_per_class st)) as Hb.
  cbn zeta in Hb. destruct Hb as (Ba & Bp & Bc).
  exists st'. split; [exact Hst'|]. unfold traced.
  rewrite E1, E2, E3, E4, E5, length_app. cbn [length]. rewrite Nat.add_1_r.
  split; [now rewrite fmap_app, Hout|].
  split.
  { rewrite entries_in_page_order_insert. apply Forall2_app; [exact Hann|].
    constructor; [|constructor]. cbn [annotations page_size]. split; [exact Ba | reflexivity]. }
  split.
  { apply Forall2_app; [exact Hstats|]. constructor; [|constructor].
    cbn [detections classes]. split; [reflexivity|]. rewrite Bp.
    apply (counts_match_foldl _ ∅ []), counts_match_empty. }
  split.
  { rewrite Bc, fmap_app, join_app. cbn [fmap list_fmap mjoin list_join].
    rewrite app_nil_r. now apply counts_match_foldl. }
  rewrite fmap_app, join_app, length_app, Htot. cbn [fmap list_fmap mjoin list_join].
  rewrite app_nil_r, num_detections_length. reflexivity.
Qed.

Lemma process_pages_traced opts pages : ∀ prev st,
  traced rt opts prev st →
  ∃ st', process_pages rt opts (length prev) pages st = Returns st'
         ∧ traced rt opts (prev ++ pages) st'.
Proof.
  induction pages as [|pg pages IH]; intros prev st Hst.
  - exists st. rewrite app_nil_r. split; [reflexivity | exact Hst].
  - destruct (process_page_traced opts prev pg st Hst) as (st1 & H1 & Hc1).
    destruct (IH (prev ++ [pg]) st1 Hc1) as (st' & H' & Hc').
    exists st'. cbn [process_pages]. rewrite H1. cbn [attempt_bind].
    rewrite length_app, Nat.add_1_r in H'. cbn [length] in H'.
    split; [exact H'|]. now rewrite <- app_assoc in Hc'.
Qed.

Lemma initial_state_traced opts : traced rt opts [] (initial_state opts).
Proof.
  unfold traced. split; [reflexivity|]. split; [constructor|].
  split; [constructor|]. split; [apply counts_match_empty | reflexivity].
Qed.

End PageTrace.

Section Bookkeeping.

Context (rt : Runtime).






End Bookkeeping.

Section ReportContents.

Context (rt : Runtime).



(** X10. The counts of the report.  [total_detections] is the number of
    detections over all pages; [detections_per_class] holds, for every class
    name, the number of detections with that name over all pages, and no key
    for a name that never occurs; and the entry of [page_stats] for each page
    holds the number of that page's detections and the same per-name counts
    restricted to the page. *)
Theorem report_counts_per_class source_doc pdf_filename opts :
  ∃ report eff,
    process_pdf rt source_doc pdf_filename opts = Returns (report, eff)
    ∧ total_detections report
      = length (mjoin ((λ pg, detection_set (page_results rt opts pg)) <$> source_doc))
    ∧ counts_match (detections_per_class report)
        (mjoin (page_labels rt opts <$> source_doc))
    ∧ Forall2 (λ pg ps,
         detections ps = num_detections (page_results rt opts pg)
         ∧ counts_match (classes ps) (page_labels rt opts pg))
        source_doc (page_stats report).
Proof.
  destruct (process_pages_traced rt opts source_doc [] (initial_state opts)
              (initial_state_traced rt opts)) as (st & Hst & _ & _ & Hstats & Hcls & Htot).
  cbn [length app] in Hst, Hstats, Hcls, Htot.
  unfold process_pdf. rewrite Hst. cbn [attempt_bind].
  eexists _, _. split; [reflexivity|].
  cbn [total_detections detections_per_class page_stats]. auto.
Qed.




End ReportContents.


(** * The upload serializer *)

Lemma list_ascii_of_string_app (a b : string) :
  Stdlib.Strings.String.list_ascii_of_string (a +:+ b) = Stdlib.Strings.String.list_ascii_of_string a ++ Stdlib.Strings.String.list_ascii_of_string b.
Proof.
  induction a as [|c a IH]; [reflexivity|].
  change (String c a +:+ b) with (String c (a +:+ b)).
  cbn [Stdlib.Strings.String.list_ascii_of_string app]. now rewrite IH.
Qed.

Lemma endswith_spec (s suffix : string) :
  serializers.endswith s suffix = true ↔ ∃ stem, s = stem +:+ suffix.
Proof.
  unfold serializers.endswith. rewrite bool_decide_eq_true. split.
  - intros [k Hk]. exists (Stdlib.Strings.String.string_of_list_ascii k).
    rewrite <- (Stdlib.Strings.String.string_of_list_ascii_of_string s), Hk.
    rewrite <- (Stdlib.Strings.String.list_ascii_of_string_of_list_ascii k) at 1.
    rewrite <- list_ascii_of_string_app.
    now rewrite Stdlib.Strings.String.string_of_list_ascii_of_string.
  - intros [stem ->]. exists (Stdlib.Strings.String.list_ascii_of_string stem).
    apply list_ascii_of_string_app.
Qed.

(** X14. [validate_pdf_file] accepts a file, and returns it as it is, exactly
    when its name ends in [.pdf] (some stem followed by these four
    characters, lower case) and its size is at most 52428800 bytes, the limit
    included.  A wrong name is reported whatever the size; a size over the
    limit is reported only for a name that ends in [.pdf]. *)
Theorem validate_pdf_file_spec (value : serializers.UploadedFile) :
  let named := ∃ stem, serializers.name value = stem +:+ ".pdf" in
  (serializers.validate_pdf_file value = Returns value
   ↔ named ∧ (serializers.size value ≤ 52428800)%Z)
  ∧ (serializers.validate_pdf_file value = Raises "Only PDF files are allowed."
     ↔ ¬ named)
  ∧ (serializers.validate_pdf_file value = Raises "File size must be under 50MB."
     ↔ named ∧ (52428800 < serializers.size value)%Z)
  ∧ ∀ r, serializers.validate_pdf_file value = Returns r → r = value.
Proof.
  cbn zeta. unfold serializers.validate_pdf_file.
  pose proof (endswith_spec (serializers.name value) ".pdf") as He.
  destruct (serializers.endswith (serializers.name value) ".pdf"); cbn [negb].
  - assert (Hn : ∃ stem, serializers.name value = stem +:+ ".pdf") by now apply He.
    change (50 * 1024 * 1024)%Z with 52428800%Z.
    destruct (Z.gtb_spec (serializers.size value) 52428800);
      (split; [|split; [|split]]); try (split; intros); try intros r;
      try discriminate; try tauto; try lia; try congruence.
  - assert (Hn : ¬ ∃ stem, serializers.name value = stem +:+ ".pdf").
    { intros H. apply He in H. discriminate. }
    (split; [|split; [|split]]); try (split; intros); try intros r;
      try discriminate; try tauto; try congruence.
Qed.
